(** * kooplearn: trainer modules and feature-map adapters

    A shallow embedding of

      - [kooplearn/encoder_decoder/nn/modules/DPNetsModule.py],
      - [kooplearn/nn/modules/KoopmanDNNModule.py],
      - [kooplearn/models/feature_maps/base.py],

    and the properties their specification states about them.

    Python objects live in a store and are named by references, so that
    [is] is equality of references and a mutation is seen through every
    alias.  A method is a computation over the store that returns a value
    or raises. *)

From stdpp Require Import gmap strings list fin_maps.

Set Default Proof Using "Type".

(** ** Exceptions and results *)

Inductive exn :=
  | AttributeError (attr : string)
  | KeyError (key : string)
  | TypeError
  | ValueError
  | NotImplementedError.

Inductive result (A : Type) :=
  | Ok (a : A)
  | Err (e : exn).
Arguments Ok {A} a.
Arguments Err {A} e.

Definition is_ok {A} (r : result A) : bool :=
  match r with Ok _ => true | Err _ => false end.

(** ** Values, dictionaries and the object store *)

Abbreviation loc := nat (only parsing).

Section python.
(** [V] stands for the payload of primitive values (numbers, strings,
    tensors); [Ext] for the internal state of the objects built by the
    caller's collaborators (networks, optimizers, schedulers). *)
Context {V Ext : Type}.

Inductive value :=
  | VNone
  | VPrim (v : V)
  | VRef (l : loc).

Abbreviation dict := (gmap string value).

(** A network class: [nc_init] is the class called on keyword arguments,
    [nc_call] is [net(batch)], which may update the network's own state. *)
Record NetClass := {
  nc_init : dict → result Ext;
  nc_call : Ext → dict → result (dict * Ext);
}.

Inductive obj :=
  | DictObj (d : dict)
  | NetObj (c : NetClass) (s : Ext)
  | ExtObj (s : Ext).

Abbreviation heap := (list obj).

(** Computations: read and write the store, return or raise. *)
Definition M (A : Type) : Type := heap → result (A * heap).

Definition ret {A} (a : A) : M A := λ h, Ok (a, h).
Definition raise {A} (e : exn) : M A := λ _, Err e.
Definition bind {A B} (m : M A) (k : A → M B) : M B :=
  λ h, match m h with
       | Ok (a, h') => k a h'
       | Err e => Err e
       end.
Definition lift {A} (r : result A) : M A :=
  λ h, match r with Ok a => Ok (a, h) | Err e => Err e end.

(** Building an object yields a reference no live object has. *)
Definition alloc (o : obj) : M loc := λ h, Ok (length h, h ++ [o]).
Definition get_heap : M heap := λ h, Ok (h, h).
End python.

Arguments value : clear implicits.
Arguments NetClass : clear implicits.
Arguments obj : clear implicits.
Arguments M : clear implicits.

Notation "'let!' x ':=' m 'in' k" := (bind m (λ x, k))
  (at level 10, x pattern, m at level 100, k at level 200,
   format "'[v' 'let!'  x  :=  m  'in'  '/' k ']'").

Section python_ops.
Context {V Ext : Type}.
Local Abbreviation value := (value V).
Local Abbreviation obj := (obj V Ext).
Local Abbreviation M := (M V Ext).
Local Abbreviation dict := (gmap string value).

(** [d.items()] and [**d]: the receiver has to be a mapping.  [None]
    and objects that are no mapping have no attribute [items]. *)
Definition dict_at (l : loc) : M dict :=
  λ h, match h !! l with
       | Some (DictObj d) => Ok (d, h)
       | _ => Err (AttributeError "items")
       end.

Definition items (a : option loc) : M (loc * dict) :=
  match a with
  | Some l => let! d := dict_at l in ret (l, d)
  | None => raise (AttributeError "items")
  end.

(** [d.copy()]: a new dictionary with the same entries. *)
Definition dict_copy (l : loc) : M loc :=
  λ h, match h !! l with
       | Some (DictObj d) => alloc (DictObj d) h
       | _ => Err (AttributeError "copy")
       end.

(** [d[k] = v] on the dictionary at [l], in place. *)
Definition dict_setitem (l : loc) (k : string) (v : value) : M unit :=
  λ h, match h !! l with
       | Some (DictObj d) => Ok (tt, <[l := DictObj (<[k := v]> d)]> h)
       | _ => Err TypeError
       end.

(** [d[k]] on a dictionary value. *)
Definition getitem (d : dict) (k : string) : M value :=
  match d !! k with
  | Some v => ret v
  | None => raise (KeyError k)
  end.

(** [for k, v in d.items(): body].  A [gmap] does not record the order
    of insertion; none of the loops below can observe it. *)
Definition for_items {S} (d : dict) (body : string → value → S → result S)
    (s : S) : result S :=
  map_fold (λ k v acc, match acc with Ok s' => body k v s' | Err e => Err e end)
           (Ok s) d.

(** [net(batch)] for the network at [l]; its state is updated in place. *)
Definition call_net (l : loc) (batch : dict) : M dict :=
  λ h, match h !! l with
       | Some (NetObj c s) =>
           match nc_call c s batch with
           | Ok (out, s') => Ok (out, <[l := NetObj c s']> h)
           | Err e => Err e
           end
       | _ => Err TypeError
       end.

(** The unpacking of the mapping at [l] into keyword arguments. *)
Definition kwargs (l : loc) : M dict :=
  λ h, match h !! l with
       | Some (DictObj d) => Ok (d, h)
       | _ => Err TypeError
       end.

(** [cls] called on keyword arguments: a new network object. *)
Definition instantiate (c : NetClass V Ext) (kw : dict) : M loc :=
  let! s := lift (nc_init c kw) in alloc (NetObj c s).

(** The caller's collaborators.  An optimizer factory receives the
    parameters and keyword arguments, a scheduler factory the optimizer
    and keyword arguments; both build a new object.  A loss maps two
    encodings to a value. *)
Definition OptimizerFn : Type := value → dict → result Ext.
Definition SchedulerFn : Type := loc → dict → result Ext.
Definition LossFn : Type := value → value → result value.

(** What [self.hparams] may hold: a value, or one of the callables the
    constructor was given. *)
Inductive hparam :=
  | HValue (v : value)
  | HClass (c : NetClass V Ext)
  | HOptimizerFn (f : OptimizerFn)
  | HSchedulerFn (f : SchedulerFn)
  | HLossFn (f : LossFn).

(** [d.update(entries)]: the entries are written one after the other. *)
Definition update (entries : list (string * hparam)) (d : gmap string hparam)
    : gmap string hparam :=
  foldl (λ acc kv, <[kv.1 := kv.2]> acc) d entries.

(** An argument that is a class, a factory or [None]. *)
Definition class_or_None (c : option (NetClass V Ext)) : hparam :=
  match c with Some c => HClass c | None => HValue VNone end.
Definition scheduler_fn_or_None (f : option SchedulerFn) : hparam :=
  match f with Some f => HSchedulerFn f | None => HValue VNone end.

(** What [configure_optimizers] returns: the optimizer alone, or the
    pair of lists [[optimizer], [lr_scheduler_config]]. *)
Inductive optimizers :=
  | Bare (optimizer : loc)
  | WithScheduler (optimizers : list loc) (lr_scheduler_configs : list loc).
End python_ops.

Arguments OptimizerFn : clear implicits.
Arguments SchedulerFn : clear implicits.
Arguments LossFn : clear implicits.
Arguments hparam : clear implicits.

(** ** DPNetsModule.py *)

Module DPNetsModule.
Section defs.
Context {V Ext : Type}.
Local Abbreviation value := (value V).
Local Abbreviation obj := (obj V Ext).
Local Abbreviation M := (M V Ext).
Local Abbreviation dict := (gmap string value).
Local Abbreviation hdict := (gmap string (hparam V Ext)).

(** The attributes of a module once [__init__] has run. *)
Record t := {
  hparams : hdict;
  model : loc;
  model_2 : loc;
  optimizer_fn : OptimizerFn V Ext;
  scheduler_fn : option (SchedulerFn V Ext);
  optimizer_hyperparameters : loc;
  scheduler_hyperparameters : loc;
  scheduler_config : loc;
  loss_fn : LossFn V;
}.

(** [self.parameters()] is the framework's: the trainable parameters of
    the networks the module holds. *)
Variable parameters : t → list obj → value.

(** [self.hparams[key] = v] *)
Definition set_hparam (key : string) (v : value) (hparams : hdict) : result hdict :=
  Ok (<[key := HValue v]> hparams).

(** [self.save_hyperparameters()] is the framework's.  Called without
    arguments it records every argument of [__init__] under its name in
    [self.hparams], over an entry of that name; a mapping is recorded as
    the object it is, not as a copy. *)
Definition init_args (model_class : NetClass V Ext) (model_hyperparameters : loc)
    (optimizer_fn : OptimizerFn V Ext) (optimizer_hyperparameters : loc)
    (loss_fn : LossFn V)
    (scheduler_fn : option (SchedulerFn V Ext))
    (scheduler_hyperparameters scheduler_config : loc)
    (model_class_2 : option (NetClass V Ext))
    (model_hyperparameters_2 : loc) : list (string * hparam V Ext) :=
  [ ("model_class", HClass model_class);
    ("model_hyperparameters", HValue (VRef model_hyperparameters));
    ("optimizer_fn", HOptimizerFn optimizer_fn);
    ("optimizer_hyperparameters", HValue (VRef optimizer_hyperparameters));
    ("loss_fn", HLossFn loss_fn);
    ("scheduler_fn", scheduler_fn_or_None scheduler_fn);
    ("scheduler_hyperparameters", HValue (VRef scheduler_hyperparameters));
    ("scheduler_config", HValue (VRef scheduler_config));
    ("model_class_2", class_or_None model_class_2);
    ("model_hyperparameters_2", HValue (VRef model_hyperparameters_2)) ].

Definition save_hyperparameters (init_args : list (string * hparam V Ext))
    (hparams : hdict) : hdict :=
  update init_args hparams.

(** The constructor.  [self.hparams] starts empty; the five loops fill
    it, then the framework adds the arguments. *)
Definition __init__ (model_class : NetClass V Ext) (model_hyperparameters : loc)
    (optimizer_fn : OptimizerFn V Ext) (optimizer_hyperparameters : loc)
    (loss_fn : LossFn V)
    (scheduler_fn : option (SchedulerFn V Ext))
    (scheduler_hyperparameters scheduler_config : option loc)
    (model_class_2 : option (NetClass V Ext))
    (model_hyperparameters_2 : option loc) : M t :=
  let hparams : hdict := ∅ in
  let! (model_hyperparameters, d) := items (Some model_hyperparameters) in
  let! hparams := lift (for_items d (λ k v, set_hparam k v) hparams) in
  let! (model_hyperparameters_2, d) := items model_hyperparameters_2 in
  let! hparams := lift (for_items d (λ k v, set_hparam ("model_2_" +:+ k) v) hparams) in
  let! (optimizer_hyperparameters, d) := items (Some optimizer_hyperparameters) in
  let! hparams := lift (for_items d (λ k v, set_hparam ("optim_" +:+ k) v) hparams) in
  let! (scheduler_hyperparameters, d) := items scheduler_hyperparameters in
  let! hparams := lift (for_items d (λ k v, set_hparam ("sched_" +:+ k) v) hparams) in
  let! (scheduler_config, d) := items scheduler_config in
  let! hparams := lift (for_items d (λ k v, set_hparam ("sched_" +:+ k) v) hparams) in
  let hparams :=
    save_hyperparameters
      (init_args model_class model_hyperparameters optimizer_fn
         optimizer_hyperparameters loss_fn scheduler_fn scheduler_hyperparameters
         scheduler_config model_class_2 model_hyperparameters_2) hparams in
  let! kw := kwargs model_hyperparameters in
  let! model := instantiate model_class kw in
  let! model_2 :=
    match model_class_2 with
    | Some model_class_2 =>
        let! kw := kwargs model_hyperparameters_2 in
        instantiate model_class_2 kw
    | None => ret model
    end in
  ret {| hparams := hparams;
         model := model;
         model_2 := model_2;
         optimizer_fn := optimizer_fn;
         scheduler_fn := scheduler_fn;
         optimizer_hyperparameters := optimizer_hyperparameters;
         scheduler_hyperparameters := scheduler_hyperparameters;
         scheduler_config := scheduler_config;
         loss_fn := loss_fn |}.

Definition configure_optimizers (self : t) : M optimizers :=
  let! h := get_heap in
  let! kw := kwargs (optimizer_hyperparameters self) in
  let! o := lift (optimizer_fn self (parameters self h) kw) in
  let! optimizer := alloc (ExtObj o) in
  match scheduler_fn self with
  | Some scheduler_fn =>
      let! kw := kwargs (scheduler_hyperparameters self) in
      let! s := lift (scheduler_fn optimizer kw) in
      let! scheduler := alloc (ExtObj s) in
      let! lr_scheduler_config := dict_copy (scheduler_config self) in
      let! _ := dict_setitem lr_scheduler_config "scheduler" (VRef scheduler) in
      ret (WithScheduler [optimizer] [lr_scheduler_config])
  | None => ret (Bare optimizer)
  end.

Definition base_step (self : t) (batch : dict) (batch_idx : Z) : M dict :=
  let! x_value := getitem batch "x_value" in
  let data_x : dict := {["x_value" := x_value]} in
  let! y_value := getitem batch "y_value" in
  let data_y : dict := {["x_value" := y_value]} in
  let! model_output_x := call_net (model self) data_x in
  let! x_encoded := getitem model_output_x "x_encoded" in
  let! model_output_y := call_net (model_2 self) data_y in
  let! y_encoded := getitem model_output_y "x_encoded" in
  let! loss := lift (loss_fn self x_encoded y_encoded) in
  let outputs : dict := {["loss" := loss]} in
  ret outputs.

Definition training_step (self : t) (train_batch : dict) (batch_idx : Z) : M dict :=
  let! outputs := base_step self train_batch batch_idx in
  ret outputs.

Definition validation_step (self : t) (valid_batch : dict) (batch_idx : Z) : M dict :=
  let! outputs := base_step self valid_batch batch_idx in
  ret outputs.

Definition forward (self : t) (batch : dict) : M dict :=
  call_net (model self) batch.
End defs.
Arguments t : clear implicits.
End DPNetsModule.

(** ** KoopmanDNNModule.py *)

Module KoopmanDNNModule.
Section defs.
Context {V Ext : Type}.
Local Abbreviation value := (value V).
Local Abbreviation obj := (obj V Ext).
Local Abbreviation M := (M V Ext).
Local Abbreviation dict := (gmap string value).
Local Abbreviation hdict := (gmap string (hparam V Ext)).

Record t := {
  hparams : hdict;
  model : loc;
  optimizer_fn : OptimizerFn V Ext;
  koopman_estimator : value;
  decoder : value;
  scheduler_fn : option (SchedulerFn V Ext);
  optimizer_hyperparameters : loc;
  scheduler_hyperparameters : loc;
  scheduler_config : loc;
  loss_fn : LossFn V;
}.

Variable parameters : t → list obj → value.

(** [self.hparams[key] = v] *)
Definition set_hparam (key : string) (v : value) (hparams : hdict) : result hdict :=
  Ok (<[key := HValue v]> hparams).

(** [self.hparamsxz[k] = v]: neither the class nor the framework gives
    the module an attribute [hparamsxz], so reading it raises. *)
Definition set_hparamsxz (key : string) (v : value) (hparams : hdict) : result hdict :=
  Err (AttributeError "hparamsxz").

(** [self.save_hyperparameters()], the framework's: every argument of
    [__init__] under its name, over an entry of that name. *)
Definition init_args (model_class : NetClass V Ext) (model_hyperparameters : loc)
    (optimizer_fn : OptimizerFn V Ext) (optimizer_hyperparameters : loc)
    (loss_fn : LossFn V)
    (koopman_estimator : value) (koopman_estimator_hyperparameters : loc)
    (decoder : value) (decoder_hyperparameters : loc)
    (scheduler_fn : option (SchedulerFn V Ext))
    (scheduler_hyperparameters scheduler_config : loc)
    : list (string * hparam V Ext) :=
  [ ("model_class", HClass model_class);
    ("model_hyperparameters", HValue (VRef model_hyperparameters));
    ("optimizer_fn", HOptimizerFn optimizer_fn);
    ("optimizer_hyperparameters", HValue (VRef optimizer_hyperparameters));
    ("loss_fn", HLossFn loss_fn);
    ("koopman_estimator", HValue koopman_estimator);
    ("koopman_estimator_hyperparameters",
      HValue (VRef koopman_estimator_hyperparameters));
    ("decoder", HValue decoder);
    ("decoder_hyperparameters", HValue (VRef decoder_hyperparameters));
    ("scheduler_fn", scheduler_fn_or_None scheduler_fn);
    ("scheduler_hyperparameters", HValue (VRef scheduler_hyperparameters));
    ("scheduler_config", HValue (VRef scheduler_config)) ].

Definition save_hyperparameters (init_args : list (string * hparam V Ext))
    (hparams : hdict) : hdict :=
  update init_args hparams.

Definition __init__ (model_class : NetClass V Ext) (model_hyperparameters : loc)
    (optimizer_fn : OptimizerFn V Ext) (optimizer_hyperparameters : loc)
    (loss_fn : LossFn V)
    (koopman_estimator : value) (koopman_estimator_hyperparameters : option loc)
    (decoder : value) (decoder_hyperparameters : option loc)
    (scheduler_fn : option (SchedulerFn V Ext))
    (scheduler_hyperparameters scheduler_config : option loc) : M t :=
  let hparams : hdict := ∅ in
  let! (model_hyperparameters, d) := items (Some model_hyperparameters) in
  let! hparams := lift (for_items d (λ k v, set_hparamsxz k v) hparams) in
  let! (optimizer_hyperparameters, d) := items (Some optimizer_hyperparameters) in
  let! hparams := lift (for_items d (λ k v, set_hparam ("optim_" +:+ k) v) hparams) in
  let! (koopman_estimator_hyperparameters, d) :=
    items koopman_estimator_hyperparameters in
  let! hparams := lift (for_items d (λ k v, set_hparam ("koop_" +:+ k) v) hparams) in
  let! (decoder_hyperparameters, d) := items decoder_hyperparameters in
  let! hparams := lift (for_items d (λ k v, set_hparam ("dec_" +:+ k) v) hparams) in
  let! (scheduler_hyperparameters, d) := items scheduler_hyperparameters in
  let! hparams := lift (for_items d (λ k v, set_hparam ("sched_" +:+ k) v) hparams) in
  let! (scheduler_config, d) := items scheduler_config in
  let! hparams := lift (for_items d (λ k v, set_hparam ("sched_" +:+ k) v) hparams) in
  let hparams :=
    save_hyperparameters
      (init_args model_class model_hyperparameters optimizer_fn
         optimizer_hyperparameters loss_fn koopman_estimator
         koopman_estimator_hyperparameters decoder decoder_hyperparameters
         scheduler_fn scheduler_hyperparameters scheduler_config) hparams in
  let! kw := kwargs model_hyperparameters in
  let! model := instantiate model_class kw in
  ret {| hparams := hparams;
         model := model;
         optimizer_fn := optimizer_fn;
         koopman_estimator := koopman_estimator;
         decoder := decoder;
         scheduler_fn := scheduler_fn;
         optimizer_hyperparameters := optimizer_hyperparameters;
         scheduler_hyperparameters := scheduler_hyperparameters;
         scheduler_config := scheduler_config;
         loss_fn := loss_fn |}.

Definition configure_optimizers (self : t) : M optimizers :=
  let! h := get_heap in
  let! kw := kwargs (optimizer_hyperparameters self) in
  let! o := lift (optimizer_fn self (parameters self h) kw) in
  let! optimizer := alloc (ExtObj o) in
  match scheduler_fn self with
  | Some scheduler_fn =>
      let! kw := kwargs (scheduler_hyperparameters self) in
      let! s := lift (scheduler_fn optimizer kw) in
      let! scheduler := alloc (ExtObj s) in
      let! lr_scheduler_config := dict_copy (scheduler_config self) in
      let! _ := dict_setitem lr_scheduler_config "scheduler" (VRef scheduler) in
      ret (WithScheduler [optimizer] [lr_scheduler_config])
  | None => ret (Bare optimizer)
  end.

Definition forward (self : t) (batch : dict) : M dict :=
  call_net (model self) batch.

Definition base_step (self : t) (batch : dict) (batch_idx : Z) : M dict :=
  raise NotImplementedError.

Definition training_step (self : t) (train_batch : dict) (batch_idx : Z) : M dict :=
  let! outputs := base_step self train_batch batch_idx in
  ret outputs.

Definition validation_step (self : t) (valid_batch : dict) (batch_idx : Z) : M dict :=
  let! outputs := base_step self valid_batch batch_idx in
  ret outputs.

Definition test_step (self : t) (test_batch : dict) (batch_idx : Z) : M dict :=
  let! outputs := base_step self test_batch batch_idx in
  ret outputs.
End defs.
Arguments t : clear implicits.
End KoopmanDNNModule.

(** ** feature_maps/base.py

    Arrays are NumPy's: a shape and the entries in row-major order.  The
    entries are only moved around, so their type is left open. *)

Section ndarray.
Context {A : Type}.

Record ndarray := {
  shape : list nat;
  data : list A;
}.

Definition size_of (s : list nat) : nat := foldr Nat.mul 1 s.

(** An array holds as many entries as its shape says. *)
Definition wf (a : ndarray) : Prop := length (data a) = size_of (shape a).

(** [np.atleast_2d]: a scalar becomes [(1, 1)], a vector of length [k]
    becomes [(1, k)], anything else is returned as it is. *)
Definition atleast_2d (a : ndarray) : ndarray :=
  match shape a with
  | [] => {| shape := [1; 1]; data := data a |}
  | [k] => {| shape := [1; k]; data := data a |}
  | _ => a
  end.

Definition last_dim (a : ndarray) : nat := List.last (shape a) 0.
Definition leading (a : ndarray) : list nat := removelast (shape a).

(** The [i]-th run of entries along the last axis. *)
Definition row (i : nat) (a : ndarray) : list A :=
  take (last_dim a) (drop (i * last_dim a) (data a)).

(** Entry [(i, j)] of a two-dimensional array. *)
Definition entry (a : ndarray) (i j : nat) : option A :=
  data a !! (i * last_dim a + j).

Definition same_leading (a b : ndarray) : bool :=
  bool_decide (shape b ≠ [] ∧ leading b = leading a).

(** [np.concatenate(arrays, axis=-1)]: at least one array, none of them
    a scalar, all of the same shape but for the last axis. *)
Definition concatenate_last (arrays : list ndarray) : result ndarray :=
  match arrays with
  | [] => Err ValueError
  | a :: rest =>
      if bool_decide (shape a = []) then Err ValueError
      else if forallb (same_leading a) rest then
        Ok {| shape := leading a ++ [sum_list (last_dim <$> arrays)];
              data := concat ((λ i, concat (row i <$> arrays))
                                <$> seq 0 (size_of (leading a))) |}
      else Err ValueError
  end.

(** A feature map is any callable from arrays to arrays. *)
Definition FeatureMap : Type := ndarray → ndarray.
End ndarray.

Arguments ndarray : clear implicits.
Arguments FeatureMap : clear implicits.

Module IdentityFeatureMap.
Definition __call__ {A} (X : ndarray A) : ndarray A :=
  let X := atleast_2d X in
  X.
End IdentityFeatureMap.

Module ConcatenateFeatureMaps.
Record t {A : Type} := {
  feature_maps : list (FeatureMap A);
}.
Arguments t : clear implicits.

Definition __init__ {A} (feature_maps : list (FeatureMap A)) : t A :=
  {| feature_maps := feature_maps |}.

Definition __call__ {A} (self : t A) (X : ndarray A) : result (ndarray A) :=
  concatenate_last ((λ fm, atleast_2d (fm X)) <$> feature_maps self).
End ConcatenateFeatureMaps.

(** ** Notions the properties are stated with *)

Section notions.
Context {V Ext : Type}.
Local Abbreviation value := (value V).
Local Abbreviation obj := (obj V Ext).
Local Abbreviation dict := (gmap string value).

(** The entries of [d], each under [prefix] followed by its key. *)
Definition prefixed (prefix : string) (d : dict) : dict :=
  kmap (String.append prefix) d.

(** The mappings of a module under their prefixes, the later one taking
    precedence (the union of maps prefers its left side). *)
Definition DPNets_flat (mh mh2 oh sh sc : dict) : dict :=
  prefixed "sched_" sc ∪ (prefixed "sched_" sh ∪ (prefixed "optim_" oh ∪
    (prefixed "model_2_" mh2 ∪ (mh ∪ ∅)))).

Definition Koopman_flat (oh kh dh sh sc : dict) : dict :=
  prefixed "sched_" sc ∪ (prefixed "sched_" sh ∪ (prefixed "dec_" dh ∪
    (prefixed "koop_" kh ∪ (prefixed "optim_" oh ∪ ∅)))).

(** The flat configuration after [save_hyperparameters()]: the arguments
    of the constructor over the flattened mappings. *)
Definition DPNets_hparams (mc : NetClass V Ext) (lmh : loc) (ofn : OptimizerFn V Ext)
    (loh : loc) (lfn : LossFn V) (sfn : option (SchedulerFn V Ext))
    (lsh lsc : loc) (mc2 : option (NetClass V Ext)) (lmh2 : loc)
    (mh mh2 oh sh sc : dict) : gmap string (hparam V Ext) :=
  DPNetsModule.save_hyperparameters
    (DPNetsModule.init_args mc lmh ofn loh lfn sfn lsh lsc mc2 lmh2)
    (HValue <$> DPNets_flat mh mh2 oh sh sc).

Definition Koopman_hparams (mc : NetClass V Ext) (lmh : loc) (ofn : OptimizerFn V Ext)
    (loh : loc) (lfn : LossFn V) (ke : value) (lkh : loc) (dec : value) (ldh : loc)
    (sfn : option (SchedulerFn V Ext)) (lsh lsc : loc)
    (oh kh dh sh sc : dict) : gmap string (hparam V Ext) :=
  KoopmanDNNModule.save_hyperparameters
    (KoopmanDNNModule.init_args mc lmh ofn loh lfn ke lkh dec ldh sfn lsh lsc)
    (HValue <$> Koopman_flat oh kh dh sh sc).

(** The names of the constructors' arguments. *)
Definition DPNets_arg_names : list string :=
  [ "model_class"; "model_hyperparameters"; "optimizer_fn";
    "optimizer_hyperparameters"; "loss_fn"; "scheduler_fn";
    "scheduler_hyperparameters"; "scheduler_config"; "model_class_2";
    "model_hyperparameters_2" ].

Definition Koopman_arg_names : list string :=
  [ "model_class"; "model_hyperparameters"; "optimizer_fn";
    "optimizer_hyperparameters"; "loss_fn"; "koopman_estimator";
    "koopman_estimator_hyperparameters"; "decoder"; "decoder_hyperparameters";
    "scheduler_fn"; "scheduler_hyperparameters"; "scheduler_config" ].

(** What a call of a network returns, its new state left aside. *)
Definition output (r : result (dict * Ext)) : result dict :=
  match r with
  | Ok (out, _) => Ok out
  | Err e => Err e
  end.

(** An encoder is a deterministic function when what it returns depends
    on its input alone. *)
Definition deterministic (c : NetClass V Ext) : Prop :=
  ∀ s s' x, output (nc_call c s x) = output (nc_call c s' x).

(** The outcome of a computation, the store left aside. *)
Definition outcome {A} (r : result (A * list obj)) : result A :=
  match r with
  | Ok (a, _) => Ok a
  | Err e => Err e
  end.

(** The operations the framework runs on a constructed [DPNetsModule]:
    each one starts from the module and the store and, when it returns,
    leaves the module as the method body left it and a new store. *)
Inductive DPNets_step (parameters : DPNetsModule.t V Ext → list obj → value) :
    DPNetsModule.t V Ext * list obj → DPNetsModule.t V Ext * list obj → Prop :=
  | step_configure_optimizers self h r h' :
      DPNetsModule.configure_optimizers parameters self h = Ok (r, h') →
      DPNets_step parameters (self, h) (self, h')
  | step_training_step self h batch batch_idx r h' :
      DPNetsModule.training_step self batch batch_idx h = Ok (r, h') →
      DPNets_step parameters (self, h) (self, h')
  | step_validation_step self h batch batch_idx r h' :
      DPNetsModule.validation_step self batch batch_idx h = Ok (r, h') →
      DPNets_step parameters (self, h) (self, h')
  | step_base_step self h batch batch_idx r h' :
      DPNetsModule.base_step self batch batch_idx h = Ok (r, h') →
      DPNets_step parameters (self, h) (self, h')
  | step_forward self h batch r h' :
      DPNetsModule.forward self batch h = Ok (r, h') →
      DPNets_step parameters (self, h) (self, h').

(** How the store may change while a module runs: a network keeps its
    place and its class (its state may move on), every other object is
    left as it was. *)
Definition evolves (h h' : list obj) : Prop :=
  ∀ l o, h !! l = Some o →
    match o with
    | NetObj c _ => ∃ s', h' !! l = Some (NetObj c s')
    | _ => h' !! l = Some o
    end.

Definition evolving {A} (m : M V Ext A) : Prop :=
  ∀ h a h', m h = Ok (a, h') → evolves h h'.
End notions.

(** ** Sample collaborators and stores

    Integers stand for primitive values and for the state of the sample
    objects. *)

Module Samples.
Open Scope Z_scope.

(** An encoder that returns its input as the encoding and counts its
    calls. *)
Definition encoder : NetClass Z Z := {|
  nc_init := λ _, Ok 0;
  nc_call := λ s batch,
    match batch !! "x_value" with
    | Some x => Ok ({["x_encoded" := x]}, s + 1)
    | None => Err (KeyError "x_value")
    end;
|}.

Definition sgd : OptimizerFn Z Z := λ _ _, Ok 10.
Definition step_lr : SchedulerFn Z Z := λ _ _, Ok 20.

Definition squared_error : LossFn Z := λ a b,
  match a, b with
  | VPrim x, VPrim y => Ok (VPrim ((x - y) * (x - y)))
  | _, _ => Err TypeError
  end.

(** The caller's dictionaries: model, optimizer, scheduler and
    scheduler-config hyperparameters, and three empty ones. *)
Definition store : list (obj Z Z) :=
  [ DictObj {["width" := VPrim 8]};
    DictObj {["lr" := VPrim 1]};
    DictObj {["gamma" := VPrim 2; "interval" := VPrim 7]};
    DictObj {["interval" := VPrim 5]};
    DictObj ∅; DictObj ∅; DictObj ∅ ].

Definition batch : gmap string (value Z) :=
  {["x_value" := VPrim 3; "y_value" := VPrim 3]}.

Definition dp_parameters (self : DPNetsModule.t Z Z) (h : list (obj Z Z)) : value Z :=
  VRef (DPNetsModule.model self).
Definition koopman_parameters (self : KoopmanDNNModule.t Z Z) (h : list (obj Z Z))
    : value Z :=
  VRef (KoopmanDNNModule.model self).

(** Modules as the constructors leave them on [store]. *)
Definition dp_shared (sfn : option (SchedulerFn Z Z)) : DPNetsModule.t Z Z := {|
  DPNetsModule.hparams :=
    DPNets_hparams encoder 0 sgd 1 squared_error sfn 2 3 None 4
      {["width" := VPrim 8]} ∅ {["lr" := VPrim 1]}
      {["gamma" := VPrim 2; "interval" := VPrim 7]} {["interval" := VPrim 5]};
  DPNetsModule.model := 7%nat;
  DPNetsModule.model_2 := 7%nat;
  DPNetsModule.optimizer_fn := sgd;
  DPNetsModule.scheduler_fn := sfn;
  DPNetsModule.optimizer_hyperparameters := 1%nat;
  DPNetsModule.scheduler_hyperparameters := 2%nat;
  DPNetsModule.scheduler_config := 3%nat;
  DPNetsModule.loss_fn := squared_error |}.

Definition koopman (sfn : option (SchedulerFn Z Z)) : KoopmanDNNModule.t Z Z := {|
  KoopmanDNNModule.hparams :=
    Koopman_hparams encoder 4 sgd 1 squared_error VNone 5 VNone 6 sfn 2 3
      {["lr" := VPrim 1]} ∅ ∅
      {["gamma" := VPrim 2; "interval" := VPrim 7]} {["interval" := VPrim 5]};
  KoopmanDNNModule.model := 7%nat;
  KoopmanDNNModule.optimizer_fn := sgd;
  KoopmanDNNModule.koopman_estimator := VNone;
  KoopmanDNNModule.decoder := VNone;
  KoopmanDNNModule.scheduler_fn := sfn;
  KoopmanDNNModule.optimizer_hyperparameters := 1%nat;
  KoopmanDNNModule.scheduler_hyperparameters := 2%nat;
  KoopmanDNNModule.scheduler_config := 3%nat;
  KoopmanDNNModule.loss_fn := squared_error |}.

Definition store' : list (obj Z Z) := store ++ [NetObj encoder 0].
End Samples.

(** A two-by-two array and two feature maps on it: the identity, and
    the sums of the rows as a column. *)
Module FeatureSamples.
Definition X : ndarray Z := {| shape := [2; 2]; data := [1; 2; 3; 4]%Z |}.

Definition row_sums : FeatureMap Z := λ X,
  {| shape := leading X ++ [1];
     data := (λ i, foldr Z.add 0%Z (row i X)) <$> seq 0 (size_of (leading X)) |}.

Definition feature_maps : list (FeatureMap Z) :=
  [IdentityFeatureMap.__call__; row_sums].

(** An array of three rows. *)
Definition X3 : ndarray Z := {| shape := [3; 1]; data := [1; 2; 3]%Z |}.
End FeatureSamples.

(** A model class that wants a [depth] argument, and a scheduler
    factory that refuses every optimizer. *)
Module MoreSamples.
Definition deep_encoder : NetClass Z Z := {|
  nc_init := λ kw,
    match kw !! "depth" with
    | Some _ => Ok 0%Z
    | None => Err TypeError
    end;
  nc_call := λ s batch, Ok (batch, s);
|}.

Definition no_scheduler : SchedulerFn Z Z := λ _ _, Err ValueError.

(** The sample store with a model mapping that has a key called like an
    argument of the constructor. *)
Definition store : list (obj Z Z) :=
  <[0%nat := DictObj {["width" := VPrim 8%Z; "scheduler_fn" := VPrim 8%Z]}]>
    Samples.store.
End MoreSamples.

(** * Properties *)

(** ** The hyperparameter loops *)

Section flatten_facts.
Context {V Ext : Type}.
Local Abbreviation value := (value V).
Local Abbreviation dict := (gmap string value).

Lemma for_items_empty {S} (body : string → value → S → result S) (s : S) :
  for_items (∅ : dict) body s = Ok s.
Proof. unfold for_items. by rewrite map_fold_empty. Qed.

Lemma for_items_insert (prefix : string) (d : dict) (hp : gmap string (hparam V Ext)) :
  for_items d (λ k v acc, Ok (<[prefix +:+ k := HValue v]> acc)) hp
  = Ok ((HValue <$> prefixed prefix d) ∪ hp).
Proof.
  unfold for_items, prefixed.
  apply (map_fold_weak_ind
           (λ r m, r = Ok ((HValue <$> kmap (String.append prefix) m) ∪ hp))).
  - by rewrite kmap_empty, fmap_empty, (left_id_L ∅ (∪)).
  - intros k v m r Hk ->. by rewrite (kmap_insert _), fmap_insert, insert_union_l.
Qed.

Lemma for_items_insert_plain (d : dict) (hp : gmap string (hparam V Ext)) :
  for_items d (λ k v acc, Ok (<[k := HValue v]> acc)) hp = Ok ((HValue <$> d) ∪ hp).
Proof.
  unfold for_items.
  apply (map_fold_weak_ind (λ r m, r = Ok ((HValue <$> m) ∪ hp))).
  - by rewrite fmap_empty, (left_id_L ∅ (∪)).
  - intros k v m r Hk ->. by rewrite fmap_insert, insert_union_l.
Qed.

(** The five loops of [DPNetsModule] and of [KoopmanDNNModule], put
    together. *)
Lemma DPNets_flat_fmap (mh mh2 oh sh sc : dict) :
  (HValue <$> prefixed "sched_" sc) ∪ ((HValue <$> prefixed "sched_" sh) ∪
    ((HValue <$> prefixed "optim_" oh) ∪ ((HValue <$> prefixed "model_2_" mh2) ∪
      ((HValue <$> mh) ∪ ∅))))
  =@{gmap string (hparam V Ext)} HValue <$> DPNets_flat mh mh2 oh sh sc.
Proof. unfold DPNets_flat. by rewrite !map_fmap_union, fmap_empty. Qed.

Lemma Koopman_flat_fmap (oh kh dh sh sc : dict) :
  (HValue <$> prefixed "sched_" sc) ∪ ((HValue <$> prefixed "sched_" sh) ∪
    ((HValue <$> prefixed "dec_" dh) ∪ ((HValue <$> prefixed "koop_" kh) ∪
      ((HValue <$> prefixed "optim_" oh) ∪ ∅))))
  =@{gmap string (hparam V Ext)} HValue <$> Koopman_flat oh kh dh sh sc.
Proof. unfold Koopman_flat. by rewrite !map_fmap_union, fmap_empty. Qed.

Lemma for_items_raise {S} (d : dict) (e : exn) (s : S) :
  d ≠ ∅ → for_items d (λ _ _ _, Err e) s = Err e.
Proof.
  unfold for_items. intros Hd.
  cut ((d = ∅ ∧ map_fold (λ _ _ (acc : result S),
                  match acc with Ok _ => Err e | Err e' => Err e' end) (Ok s) d = Ok s)
       ∨ map_fold (λ _ _ (acc : result S),
                  match acc with Ok _ => Err e | Err e' => Err e' end) (Ok s) d = Err e).
  { intros [[? _]|?]; done. }
  apply (map_fold_weak_ind (λ r m, (m = ∅ ∧ r = Ok s) ∨ r = Err e)).
  - by left.
  - intros k v m r _ [[_ ->]| ->]; by right.
Qed.

Lemma dict_at_lookup (h : list (obj V Ext)) l d :
  h !! l = Some (DictObj d) → dict_at l h = Ok (d, h).
Proof. unfold dict_at. by intros ->. Qed.

Lemma kwargs_lookup (h : list (obj V Ext)) l d :
  h !! l = Some (DictObj d) → kwargs l h = Ok (d, h).
Proof. unfold kwargs. by intros ->. Qed.

Lemma items_lookup (h : list (obj V Ext)) l d :
  h !! l = Some (DictObj d) → items (Some l) h = Ok ((l, d), h).
Proof. intros Hl. unfold items, bind. by rewrite (dict_at_lookup _ _ _ Hl). Qed.

Lemma items_None (h : list (obj V Ext)) :
  items None h = Err (AttributeError "items").
Proof. done. Qed.

(** [items] either raises for want of the attribute or finds a mapping. *)
Lemma items_cases (a : option loc) (h : list (obj V Ext)) :
  items a h = Err (AttributeError "items")
  ∨ ∃ l d, a = Some l ∧ h !! l = Some (DictObj d) ∧ items a h = Ok ((l, d), h).
Proof.
  destruct a as [l|]; [|by left].
  unfold items, bind, dict_at.
  destruct (h !! l) as [[d| |]|] eqn:Hl; eauto 6.
Qed.
End flatten_facts.


(** Running one loop of a constructor: the mapping is found, or it is not. *)
Ltac loop_found H :=
  unfold bind at 1; rewrite (items_lookup _ _ _ H);
  unfold bind at 1, lift at 1;
  first [ rewrite for_items_insert_plain
        | rewrite (for_items_insert _) ].

Ltac loop_cases H :=
  unfold bind at 1;
  match goal with
  | |- context [items ?a ?h] =>
      let E := fresh "E" in
      destruct (items_cases a h) as [E|(?l & ?d & ? & H & E)];
      rewrite E; clear E;
      [ try done
      | unfold bind at 1, lift at 1;
        first [ rewrite for_items_insert_plain
              | rewrite (for_items_insert _) ] ]
  end.

(** The first loop of [KoopmanDNNModule]: no mapping, no entry, or an entry
    and the missing attribute. *)
Ltac first_loop_cases H :=
  unfold bind at 1;
  match goal with
  | |- context [items ?a ?h] =>
      let E := fresh "E" in
      destruct (items_cases a h) as [E|(?l & ?d & ? & H & E)];
      rewrite E; clear E;
      [ try done
      | unfold bind at 1, lift at 1, KoopmanDNNModule.set_hparamsxz;
        match goal with
        | |- context [for_items ?d _ _] =>
            destruct (decide (d = ∅)) as [->|?];
            [rewrite for_items_empty | rewrite for_items_raise by done; try done]
        end ]
  end.

Section DPNets_init.
Context {V Ext : Type}.
Local Abbreviation value := (value V).
Local Abbreviation obj := (obj V Ext).
Local Abbreviation dict := (gmap string value).

Lemma DPNets_init_run (h : list obj) mc ofn lfn sfn mc2
    (lmh loh lsh lsc lmh2 : loc) (mh oh sh sc mh2 : dict) :
  h !! lmh = Some (DictObj mh) → h !! loh = Some (DictObj oh) →
  h !! lsh = Some (DictObj sh) → h !! lsc = Some (DictObj sc) →
  h !! lmh2 = Some (DictObj mh2) →
  DPNetsModule.__init__ mc lmh ofn loh lfn sfn (Some lsh) (Some lsc) mc2 (Some lmh2) h
  = match nc_init mc mh with
    | Err e => Err e
    | Ok s =>
        let mk := λ m2,
          {| DPNetsModule.hparams :=
               DPNets_hparams mc lmh ofn loh lfn sfn lsh lsc mc2 lmh2
                 mh mh2 oh sh sc;
             DPNetsModule.model := length h;
             DPNetsModule.model_2 := m2;
             DPNetsModule.optimizer_fn := ofn;
             DPNetsModule.scheduler_fn := sfn;
             DPNetsModule.optimizer_hyperparameters := loh;
             DPNetsModule.scheduler_hyperparameters := lsh;
             DPNetsModule.scheduler_config := lsc;
             DPNetsModule.loss_fn := lfn |} in
        match mc2 with
        | None => Ok (mk (length h), h ++ [NetObj mc s])
        | Some c2 =>
            match nc_init c2 mh2 with
            | Err e => Err e
            | Ok s2 => Ok (mk (S (length h)), (h ++ [NetObj mc s]) ++ [NetObj c2 s2])
            end
        end
    end.
Proof.
  intros Hmh Hoh Hsh Hsc Hmh2.
  unfold DPNetsModule.__init__, DPNetsModule.set_hparam.
  loop_found Hmh. loop_found Hmh2. loop_found Hoh. loop_found Hsh. loop_found Hsc.
  rewrite DPNets_flat_fmap.
  unfold bind at 1. rewrite (kwargs_lookup _ _ _ Hmh).
  unfold instantiate, bind, lift, alloc, ret.
  destruct (nc_init mc mh) as [s|e]; [|done].
  destruct mc2 as [c2|]; [|done].
  rewrite (kwargs_lookup (h ++ [NetObj mc s]) lmh2 mh2)
    by (rewrite lookup_app_l; [done | by eapply lookup_lt_Some]).
  destruct (nc_init c2 mh2) as [s2|e]; [|done].
  by rewrite length_app, Nat.add_1_r.
Qed.

(** A construction that returns has found a mapping behind every
    hyperparameter argument. *)
Lemma DPNets_init_args (h h' : list obj) mc ofn lfn sfn mc2
    (lmh loh : loc) (osh osc omh2 : option loc) m :
  DPNetsModule.__init__ mc lmh ofn loh lfn sfn osh osc mc2 omh2 h = Ok (m, h') →
  ∃ lsh lsc lmh2 mh oh sh sc mh2,
    osh = Some lsh ∧ osc = Some lsc ∧ omh2 = Some lmh2 ∧
    h !! lmh = Some (DictObj mh) ∧ h !! loh = Some (DictObj oh) ∧
    h !! lsh = Some (DictObj sh) ∧ h !! lsc = Some (DictObj sc) ∧
    h !! lmh2 = Some (DictObj mh2).
Proof.
  unfold DPNetsModule.__init__, DPNetsModule.set_hparam.
  loop_cases Hmh. loop_cases Hmh2. loop_cases Hoh. loop_cases Hsh. loop_cases Hsc.
  intros _. simplify_eq. by eexists _, _, _, _, _, _, _, _.
Qed.

(** A missing mapping makes the construction raise, whatever else it is
    given. *)
Lemma DPNets_init_None (h : list obj) mc ofn lfn sfn mc2
    (lmh loh : loc) (osh osc omh2 : option loc) :
  osh = None ∨ osc = None ∨ omh2 = None →
  DPNetsModule.__init__ mc lmh ofn loh lfn sfn osh osc mc2 omh2 h
  = Err (AttributeError "items").
Proof.
  intros Hnone.
  destruct (DPNetsModule.__init__ mc lmh ofn loh lfn sfn osh osc mc2 omh2 h)
    as [[m h']|e] eqn:E.
  - apply DPNets_init_args in E as (?&?&?&?&?&?&?&?&?&?&?&_).
    destruct Hnone as [?|[?|?]]; congruence.
  - revert E. unfold DPNetsModule.__init__, DPNetsModule.set_hparam.
    loop_cases Hmh.
    loop_cases Hmh2.
    loop_cases Hoh.
    loop_cases Hsh.
    loop_cases Hsc.
    destruct Hnone as [?|[?|?]]; congruence.
Qed.
End DPNets_init.

Section Koopman_init.
Context {V Ext : Type}.
Local Abbreviation value := (value V).
Local Abbreviation obj := (obj V Ext).
Local Abbreviation dict := (gmap string value).

(** The first loop writes through [self.hparamsxz]: with an entry to
    write the construction raises, whatever the other arguments. *)
Lemma Koopman_init_nonempty (h : list obj) mc ofn lfn ke dec sfn
    (lmh loh : loc) (okh odh osh osc : option loc) (mh : dict) :
  h !! lmh = Some (DictObj mh) → mh ≠ ∅ →
  KoopmanDNNModule.__init__ mc lmh ofn loh lfn ke okh dec odh sfn osh osc h
  = Err (AttributeError "hparamsxz").
Proof.
  intros Hmh Hne. unfold KoopmanDNNModule.__init__.
  unfold bind at 1. rewrite (items_lookup _ _ _ Hmh).
  unfold bind at 1, lift at 1, KoopmanDNNModule.set_hparamsxz.
  by rewrite for_items_raise.
Qed.

Lemma Koopman_init_run (h : list obj) mc ofn lfn ke dec sfn
    (lmh loh lkh ldh lsh lsc : loc) (oh kh dh sh sc : dict) :
  h !! lmh = Some (DictObj ∅) → h !! loh = Some (DictObj oh) →
  h !! lkh = Some (DictObj kh) → h !! ldh = Some (DictObj dh) →
  h !! lsh = Some (DictObj sh) → h !! lsc = Some (DictObj sc) →
  KoopmanDNNModule.__init__ mc lmh ofn loh lfn ke (Some lkh) dec (Some ldh)
    sfn (Some lsh) (Some lsc) h
  = match nc_init mc ∅ with
    | Err e => Err e
    | Ok s =>
        Ok ({| KoopmanDNNModule.hparams :=
                 Koopman_hparams mc lmh ofn loh lfn ke lkh dec ldh sfn lsh lsc
                   oh kh dh sh sc;
               KoopmanDNNModule.model := length h;
               KoopmanDNNModule.optimizer_fn := ofn;
               KoopmanDNNModule.koopman_estimator := ke;
               KoopmanDNNModule.decoder := dec;
               KoopmanDNNModule.scheduler_fn := sfn;
               KoopmanDNNModule.optimizer_hyperparameters := loh;
               KoopmanDNNModule.scheduler_hyperparameters := lsh;
               KoopmanDNNModule.scheduler_config := lsc;
               KoopmanDNNModule.loss_fn := lfn |}, h ++ [NetObj mc s])
    end.
Proof.
  intros Hmh Hoh Hkh Hdh Hsh Hsc.
  unfold KoopmanDNNModule.__init__, KoopmanDNNModule.set_hparam.
  unfold bind at 1. rewrite (items_lookup _ _ _ Hmh).
  unfold bind at 1, lift at 1. rewrite for_items_empty.
  loop_found Hoh. loop_found Hkh. loop_found Hdh. loop_found Hsh. loop_found Hsc.
  rewrite Koopman_flat_fmap.
  unfold bind at 1. rewrite (kwargs_lookup _ _ _ Hmh).
  unfold instantiate, bind, lift, alloc, ret.
  by destruct (nc_init mc ∅).
Qed.

(** A construction that returns was given an empty mapping for the
    model and a mapping for everything else. *)
Lemma Koopman_init_args (h h' : list obj) mc ofn lfn ke dec sfn
    (lmh loh : loc) (okh odh osh osc : option loc) m :
  KoopmanDNNModule.__init__ mc lmh ofn loh lfn ke okh dec odh sfn osh osc h
  = Ok (m, h') →
  ∃ lkh ldh lsh lsc oh kh dh sh sc,
    okh = Some lkh ∧ odh = Some ldh ∧ osh = Some lsh ∧ osc = Some lsc ∧
    h !! lmh = Some (DictObj ∅) ∧ h !! loh = Some (DictObj oh) ∧
    h !! lkh = Some (DictObj kh) ∧ h !! ldh = Some (DictObj dh) ∧
    h !! lsh = Some (DictObj sh) ∧ h !! lsc = Some (DictObj sc).
Proof.
  unfold KoopmanDNNModule.__init__, KoopmanDNNModule.set_hparam.
  first_loop_cases Hmh.
  loop_cases Hoh. loop_cases Hkh. loop_cases Hdh. loop_cases Hsh. loop_cases Hsc.
  intros _. simplify_eq. by eexists _, _, _, _, _, _, _, _, _.
Qed.

(** Every way the hyperparameter loops can raise is a missing
    attribute. *)
Lemma Koopman_init_None (h : list obj) mc ofn lfn ke dec sfn
    (lmh loh : loc) (okh odh osh osc : option loc) :
  okh = None ∨ odh = None ∨ osh = None ∨ osc = None →
  ∃ attr,
    KoopmanDNNModule.__init__ mc lmh ofn loh lfn ke okh dec odh sfn osh osc h
    = Err (AttributeError attr).
Proof.
  intros Hnone.
  destruct (KoopmanDNNModule.__init__ mc lmh ofn loh lfn ke okh dec odh sfn osh osc h)
    as [[m h']|e] eqn:E.
  - apply Koopman_init_args in E as (?&?&?&?&?&?&?&?&?&?&?&?&?&_).
    destruct Hnone as [?|[?|[?|?]]]; congruence.
  - revert E. unfold KoopmanDNNModule.__init__, KoopmanDNNModule.set_hparam.
    first_loop_cases Hmh; try (by intros [= <-]; eauto).
    loop_cases Hoh; try (by intros [= <-]; eauto).
    loop_cases Hkh; try (by intros [= <-]; eauto).
    loop_cases Hdh; try (by intros [= <-]; eauto).
    loop_cases Hsh; try (by intros [= <-]; eauto).
    loop_cases Hsc; try (by intros [= <-]; eauto).
    destruct Hnone as [?|[?|[?|?]]]; congruence.
Qed.
End Koopman_init.

(** ** The store while a module runs *)

Section store.
Context {V Ext : Type}.
Local Abbreviation value := (value V).
Local Abbreviation obj := (obj V Ext).
Local Abbreviation M := (M V Ext).
Local Abbreviation dict := (gmap string value).

Lemma evolves_refl (h : list obj) : evolves h h.
Proof. intros l [d|c s|s] Hl; eauto. Qed.

Lemma evolves_trans (h1 h2 h3 : list obj) :
  evolves h1 h2 → evolves h2 h3 → evolves h1 h3.
Proof.
  intros H12 H23 l o Hl. specialize (H12 l o Hl).
  destruct o as [d|c s|s]; [by apply (H23 l (DictObj d))| |by apply (H23 l (ExtObj s))].
  destruct H12 as [s' Hs']. apply (H23 l _ Hs').
Qed.

Lemma evolves_app (h new : list obj) : evolves h (h ++ new).
Proof.
  intros l o Hl.
  assert (Hl' : (h ++ new) !! l = Some o)
    by (rewrite lookup_app_l; [done | by eapply lookup_lt_Some]).
  destruct o; eauto.
Qed.

Lemma evolves_net (h : list obj) l c s s' :
  h !! l = Some (NetObj c s) → evolves h (<[l := NetObj c s']> h).
Proof.
  intros Hl l' o Hl'. destruct (decide (l = l')) as [<-|Hne].
  - rewrite list_lookup_insert_eq by (by eapply lookup_lt_Some).
    simplify_eq. eauto.
  - rewrite list_lookup_insert_ne by done. destruct o; eauto.
Qed.

Lemma evolving_ret {A} (a : A) : evolving (ret a : M A).
Proof. intros h a' h' [= _ <-]. apply evolves_refl. Qed.

Lemma evolving_raise {A} (e : exn) : evolving (raise e : M A).
Proof. by intros h a h'. Qed.

Lemma evolving_lift {A} (r : result A) : evolving (lift r : M A).
Proof. intros h a h'. unfold lift. destruct r; intros [= _ <-]. apply evolves_refl. Qed.

Lemma evolving_bind {A B} (m : M A) (k : A → M B) :
  evolving m → (∀ a, evolving (k a)) → evolving (bind m k).
Proof.
  intros Hm Hk h b h'. unfold bind.
  destruct (m h) as [[a h1]|e] eqn:E; [|done].
  intros Hb. eapply evolves_trans; [by eapply Hm | by eapply Hk].
Qed.

Lemma evolving_alloc (o : obj) : evolving (alloc o).
Proof. intros h a h' [= _ <-]. apply evolves_app. Qed.

Lemma evolving_get_heap : evolving (get_heap : M (list obj)).
Proof. intros h a h' [= _ <-]. apply evolves_refl. Qed.

Lemma evolving_kwargs l : evolving (kwargs l : M dict).
Proof.
  intros h a h'. unfold kwargs.
  destruct (h !! l) as [[d| |]|]; intros [= _ <-]. apply evolves_refl.
Qed.

Lemma evolving_getitem (d : dict) k : evolving (getitem d k : M value).
Proof.
  unfold getitem. destruct (d !! k); [apply evolving_ret | apply evolving_raise].
Qed.

Lemma evolving_call_net l (batch : dict) : evolving (call_net l batch : M dict).
Proof.
  intros h a h'. unfold call_net.
  destruct (h !! l) as [[d|c s|s]|] eqn:Hl; try done.
  destruct (nc_call c s batch) as [[out s']|e]; intros [= _ <-].
  by eapply evolves_net.
Qed.

(** Copying a dictionary and writing into the copy leaves the original
    as it was. *)
Lemma copy_setitem_run (h : list obj) l (d : dict) k v :
  h !! l = Some (DictObj d) →
  (let! c := dict_copy l in let! _ := dict_setitem c k v in ret c) h
  = Ok (length h, h ++ [DictObj (<[k := v]> d)]).
Proof.
  intros Hl. unfold bind, dict_copy, dict_setitem, alloc, ret. rewrite Hl.
  rewrite lookup_app_r, Nat.sub_diag by done. simpl.
  rewrite insert_app_r_alt, Nat.sub_diag by done. done.
Qed.
End store.

Section store_copy.
Context {V Ext : Type}.
Local Abbreviation M := (M V Ext).

Lemma evolving_copy_setitem {A} l k (v : value V) (kont : loc → M A) :
  (∀ c, evolving (kont c)) →
  evolving (let! c := dict_copy l in let! _ := dict_setitem c k v in kont c).
Proof.
  intros Hk h a h'. unfold bind at 1, dict_copy.
  destruct (h !! l) as [[d| |]|] eqn:Hl; try done.
  unfold alloc, bind, dict_setitem.
  rewrite lookup_app_r, Nat.sub_diag by done. simpl.
  rewrite insert_app_r_alt, Nat.sub_diag by done. simpl.
  intros Ha. eapply evolves_trans; [apply evolves_app | by eapply Hk].
Qed.
End store_copy.

(** ** [configure_optimizers] *)

(** Both modules have the same method body; one script runs either. *)
Ltac configure_run Hoh Ho :=
  unfold bind at 1, get_heap;
  unfold bind at 1; rewrite (kwargs_lookup _ _ _ Hoh);
  unfold bind at 1, lift at 1; rewrite Ho;
  unfold bind at 1, alloc at 1.

Ltac configure_scheduler_run Hsh Hsc Hs :=
  unfold bind at 1;
  rewrite (kwargs_lookup _ _ _ (lookup_app_l_Some _ _ _ _ Hsh));
  unfold bind at 1, lift at 1; rewrite Hs;
  unfold bind, alloc, dict_copy, dict_setitem, ret;
  rewrite (lookup_app_l_Some _ _ _ _ (lookup_app_l_Some _ _ _ _ Hsc));
  unfold alloc;
  rewrite lookup_app_r, Nat.sub_diag by done; simpl;
  rewrite insert_app_r_alt, Nat.sub_diag by done; simpl;
  rewrite !length_app; simpl;
  rewrite <-!(assoc_L (++)), <-(Nat.add_assoc _ 1 1); done.

Section configure.
Context {V Ext : Type}.
Local Abbreviation value := (value V).
Local Abbreviation obj := (obj V Ext).
Local Abbreviation dict := (gmap string value).

Lemma DPNets_configure_bare p (self : DPNetsModule.t V Ext) (h : list obj)
    (oh : dict) o :
  h !! DPNetsModule.optimizer_hyperparameters self = Some (DictObj oh) →
  DPNetsModule.scheduler_fn self = None →
  DPNetsModule.optimizer_fn self (p self h) oh = Ok o →
  DPNetsModule.configure_optimizers p self h
  = Ok (Bare (length h), h ++ [ExtObj o]).
Proof.
  intros Hoh Hnone Ho. unfold DPNetsModule.configure_optimizers.
  configure_run Hoh Ho. by rewrite Hnone.
Qed.

Lemma DPNets_configure_scheduler p (self : DPNetsModule.t V Ext) (h : list obj)
    (oh sh sc : dict) o f s :
  h !! DPNetsModule.optimizer_hyperparameters self = Some (DictObj oh) →
  h !! DPNetsModule.scheduler_hyperparameters self = Some (DictObj sh) →
  h !! DPNetsModule.scheduler_config self = Some (DictObj sc) →
  DPNetsModule.scheduler_fn self = Some f →
  DPNetsModule.optimizer_fn self (p self h) oh = Ok o →
  f (length h) sh = Ok s →
  DPNetsModule.configure_optimizers p self h
  = Ok (WithScheduler [length h] [length h + 2],
        h ++ [ExtObj o; ExtObj s;
              DictObj (<["scheduler" := VRef (length h + 1)]> sc)]).
Proof.
  intros Hoh Hsh Hsc Hf Ho Hs. unfold DPNetsModule.configure_optimizers.
  configure_run Hoh Ho. rewrite Hf.
  configure_scheduler_run Hsh Hsc Hs.
Qed.

Lemma Koopman_configure_bare p (self : KoopmanDNNModule.t V Ext) (h : list obj)
    (oh : dict) o :
  h !! KoopmanDNNModule.optimizer_hyperparameters self = Some (DictObj oh) →
  KoopmanDNNModule.scheduler_fn self = None →
  KoopmanDNNModule.optimizer_fn self (p self h) oh = Ok o →
  KoopmanDNNModule.configure_optimizers p self h
  = Ok (Bare (length h), h ++ [ExtObj o]).
Proof.
  intros Hoh Hnone Ho. unfold KoopmanDNNModule.configure_optimizers.
  configure_run Hoh Ho. by rewrite Hnone.
Qed.

Lemma Koopman_configure_scheduler p (self : KoopmanDNNModule.t V Ext)
    (h : list obj) (oh sh sc : dict) o f s :
  h !! KoopmanDNNModule.optimizer_hyperparameters self = Some (DictObj oh) →
  h !! KoopmanDNNModule.scheduler_hyperparameters self = Some (DictObj sh) →
  h !! KoopmanDNNModule.scheduler_config self = Some (DictObj sc) →
  KoopmanDNNModule.scheduler_fn self = Some f →
  KoopmanDNNModule.optimizer_fn self (p self h) oh = Ok o →
  f (length h) sh = Ok s →
  KoopmanDNNModule.configure_optimizers p self h
  = Ok (WithScheduler [length h] [length h + 2],
        h ++ [ExtObj o; ExtObj s;
              DictObj (<["scheduler" := VRef (length h + 1)]> sc)]).
Proof.
  intros Hoh Hsh Hsc Hf Ho Hs. unfold KoopmanDNNModule.configure_optimizers.
  configure_run Hoh Ho. rewrite Hf.
  configure_scheduler_run Hsh Hsc Hs.
Qed.

Lemma DPNets_configure_evolving p (self : DPNetsModule.t V Ext) :
  evolving (DPNetsModule.configure_optimizers p self).
Proof.
  unfold DPNetsModule.configure_optimizers.
  apply evolving_bind; [apply evolving_get_heap|intros h0].
  apply evolving_bind; [apply evolving_kwargs|intros kw].
  apply evolving_bind; [apply evolving_lift|intros o].
  apply evolving_bind; [apply evolving_alloc|intros optimizer].
  destruct (DPNetsModule.scheduler_fn self) as [f|]; [|apply evolving_ret].
  apply evolving_bind; [apply evolving_kwargs|intros kw'].
  apply evolving_bind; [apply evolving_lift|intros s].
  apply evolving_bind; [apply evolving_alloc|intros scheduler].
  apply evolving_copy_setitem. intros c. apply evolving_ret.
Qed.
End configure.

(** ** The step executor of [DPNetsModule] *)

Section steps.
Context {V Ext : Type}.
Local Abbreviation value := (value V).
Local Abbreviation obj := (obj V Ext).
Local Abbreviation dict := (gmap string value).

Lemma call_net_run (h : list obj) l c s (batch out : dict) s' :
  h !! l = Some (NetObj c s) → nc_call c s batch = Ok (out, s') →
  call_net l batch h = Ok (out, <[l := NetObj c s']> h).
Proof. intros Hl Hc. unfold call_net. by rewrite Hl, Hc. Qed.

Lemma getitem_run (h : list obj) (d : dict) k v :
  d !! k = Some v → getitem d k h = Ok (v, h).
Proof. intros Hk. unfold getitem. by rewrite Hk. Qed.

Lemma output_Ok (r : result (dict * Ext)) (out : dict) :
  output r = Ok out → ∃ s', r = Ok (out, s').
Proof. destruct r as [[o s']|e]; intros [= <-]. eauto. Qed.

Lemma DPNets_base_step_run (self : DPNetsModule.t V Ext) (batch : dict) batch_idx
    (h : list obj) xv yv c1 s1 (out_x : dict) s1' xe c2 s2 (out_y : dict) s2' ye loss :
  batch !! "x_value" = Some xv → batch !! "y_value" = Some yv →
  h !! DPNetsModule.model self = Some (NetObj c1 s1) →
  nc_call c1 s1 {["x_value" := xv]} = Ok (out_x, s1') →
  out_x !! "x_encoded" = Some xe →
  <[DPNetsModule.model self := NetObj c1 s1']> h !! DPNetsModule.model_2 self
    = Some (NetObj c2 s2) →
  nc_call c2 s2 {["x_value" := yv]} = Ok (out_y, s2') →
  out_y !! "x_encoded" = Some ye →
  DPNetsModule.loss_fn self xe ye = Ok loss →
  DPNetsModule.base_step self batch batch_idx h
  = Ok ({["loss" := loss]},
        <[DPNetsModule.model_2 self := NetObj c2 s2']>
          (<[DPNetsModule.model self := NetObj c1 s1']> h)).
Proof.
  intros Hx Hy Hm Hc1 Hxe Hm2 Hc2 Hye Hloss. unfold DPNetsModule.base_step.
  unfold bind at 1. rewrite (getitem_run _ _ _ _ Hx).
  unfold bind at 1. rewrite (getitem_run _ _ _ _ Hy).
  unfold bind at 1. rewrite (call_net_run _ _ _ _ _ _ _ Hm Hc1).
  unfold bind at 1. rewrite (getitem_run _ _ _ _ Hxe).
  unfold bind at 1. rewrite (call_net_run _ _ _ _ _ _ _ Hm2 Hc2).
  unfold bind at 1. rewrite (getitem_run _ _ _ _ Hye).
  unfold bind, lift, ret. by rewrite Hloss.
Qed.

Lemma DPNets_training_step_eq (self : DPNetsModule.t V Ext) (batch : dict) i h :
  DPNetsModule.training_step self batch i h = DPNetsModule.base_step self batch i h.
Proof.
  unfold DPNetsModule.training_step, bind, ret.
  by destruct (DPNetsModule.base_step self batch i h) as [[??]|?].
Qed.

Lemma DPNets_validation_step_eq (self : DPNetsModule.t V Ext) (batch : dict) i h :
  DPNetsModule.validation_step self batch i h = DPNetsModule.base_step self batch i h.
Proof.
  unfold DPNetsModule.validation_step, bind, ret.
  by destruct (DPNetsModule.base_step self batch i h) as [[??]|?].
Qed.

Lemma DPNets_base_step_evolving (self : DPNetsModule.t V Ext) (batch : dict) i :
  evolving (DPNetsModule.base_step self batch i).
Proof.
  unfold DPNetsModule.base_step.
  apply evolving_bind; [apply evolving_getitem|intros xv].
  apply evolving_bind; [apply evolving_getitem|intros yv].
  apply evolving_bind; [apply evolving_call_net|intros ox].
  apply evolving_bind; [apply evolving_getitem|intros xe].
  apply evolving_bind; [apply evolving_call_net|intros oy].
  apply evolving_bind; [apply evolving_getitem|intros ye].
  apply evolving_bind; [apply evolving_lift|intros l]. apply evolving_ret.
Qed.

(** An operation leaves the module's attributes alone, and the store
    evolves. *)
Lemma DPNets_step_frame p (x y : DPNetsModule.t V Ext * list obj) :
  DPNets_step p x y → y.1 = x.1 ∧ evolves x.2 y.2.
Proof.
  destruct 1 as [self h r h' E|self h b i r h' E|self h b i r h' E
                |self h b i r h' E|self h b r h' E]; (split; [done|]); simpl.
  - by eapply DPNets_configure_evolving.
  - rewrite DPNets_training_step_eq in E. by eapply DPNets_base_step_evolving.
  - rewrite DPNets_validation_step_eq in E. by eapply DPNets_base_step_evolving.
  - by eapply DPNets_base_step_evolving.
  - by eapply evolving_call_net.
Qed.

Lemma DPNets_steps_frame p (x y : DPNetsModule.t V Ext * list obj) :
  rtc (DPNets_step p) x y → y.1 = x.1 ∧ evolves x.2 y.2.
Proof.
  induction 1 as [x|x y z Hxy _ [IH1 IH2]].
  - split; [done | apply evolves_refl].
  - apply DPNets_step_frame in Hxy as [H1 H2].
    split; [congruence | by eapply evolves_trans].
Qed.
End steps.

(** ** Concatenation along the last axis *)

Section ndarray_facts.
Context {A : Type}.
Implicit Types (a : ndarray A) (arrays : list (ndarray A)) (cols : list nat).

Lemma length_concat_sum (ls : list (list A)) :
  length (concat ls) = sum_list (length <$> ls).
Proof.
  induction ls as [|l ls IH]; [done|].
  by rewrite fmap_cons, concat_cons, length_app, IH.
Qed.

Lemma lookup_concat_at (ls : list (list A)) p l j :
  ls !! p = Some l → j < length l →
  concat ls !! (sum_list (length <$> take p ls) + j) = l !! j.
Proof.
  revert p. induction ls as [|x ls IH]; intros [|p] Hp Hj; simplify_eq/=.
  - by rewrite lookup_app_l by lia.
  - rewrite lookup_app_r by lia.
    replace (length x + sum_list (length <$> take p ls) + j - length x)
      with (sum_list (length <$> take p ls) + j) by lia.
    by apply IH.
Qed.

Lemma last_dim_2d a n w : shape a = [n; w] → last_dim a = w.
Proof. unfold last_dim. by intros ->. Qed.

Lemma leading_2d a n w : shape a = [n; w] → leading a = [n].
Proof. unfold leading. by intros ->. Qed.

Lemma length_row a n w i :
  shape a = [n; w] → wf a → i < n → length (row i a) = w.
Proof.
  intros Hs Hwf Hi. unfold row. rewrite (last_dim_2d _ _ _ Hs).
  rewrite length_take, length_drop, Hwf, Hs. simpl. nia.
Qed.

Lemma lookup_row a n w i j :
  shape a = [n; w] → j < w → row i a !! j = entry a i j.
Proof.
  intros Hs Hj. unfold row, entry. rewrite (last_dim_2d _ _ _ Hs).
  by rewrite lookup_take_lt, lookup_drop by done.
Qed.

Lemma last_dims_2d arrays cols n :
  Forall2 (λ a w, shape a = [n; w]) arrays cols → last_dim <$> arrays = cols.
Proof.
  induction 1 as [|a w arrays cols Hs _ IH]; [done|].
  by rewrite fmap_cons, (last_dim_2d _ _ _ Hs), IH.
Qed.

Lemma same_leading_2d a arrays cols n w :
  shape a = [n; w] →
  Forall2 (λ a w, shape a = [n; w]) arrays cols →
  forallb (same_leading a) arrays = true.
Proof.
  intros Ha. induction 1 as [|b w' arrays cols Hs _ IH]; [done|].
  simpl. rewrite IH, andb_true_r. unfold same_leading.
  apply bool_decide_eq_true. unfold leading. by rewrite Ha, Hs.
Qed.

Lemma row_lengths arrays cols n i :
  Forall2 (λ a w, shape a = [n; w]) arrays cols → Forall wf arrays → i < n →
  length <$> (row i <$> arrays) = cols.
Proof.
  intros Hs Hwf Hi. induction Hs as [|a w arrays cols Hs _ IH]; [done|].
  apply Forall_cons in Hwf as [Hwa Hwf].
  by rewrite !fmap_cons, (length_row _ _ _ _ Hs Hwa Hi), IH.
Qed.

Lemma length_concat_rows arrays cols n i :
  Forall2 (λ a w, shape a = [n; w]) arrays cols → Forall wf arrays → i < n →
  length (concat (row i <$> arrays)) = sum_list cols.
Proof.
  intros Hs Hwf Hi. by rewrite length_concat_sum, (row_lengths _ cols n).
Qed.

(** On two-dimensional arrays with [n] rows each: the result, its
    shape, its size and where each entry comes from. *)
Lemma concatenate_last_2d arrays cols n :
  arrays ≠ [] →
  Forall2 (λ a w, shape a = [n; w]) arrays cols →
  ∃ r, concatenate_last arrays = Ok r ∧
       shape r = [n; sum_list cols] ∧
       (Forall wf arrays →
        wf r ∧
        ∀ p a w i j, arrays !! p = Some a → cols !! p = Some w →
          i < n → j < w →
          entry r i (sum_list (take p cols) + j) = entry a i j).
Proof.
  intros Hne Hs. destruct Hs as [|a w arrays cols Ha Hs]; [done|].
  assert (Hall : Forall2 (λ a w, shape a = [n; w]) (a :: arrays) (w :: cols))
    by (by constructor).
  unfold concatenate_last.
  rewrite bool_decide_eq_false_2 by (by rewrite Ha).
  rewrite (same_leading_2d a arrays cols n w Ha Hs).
  rewrite (last_dims_2d _ _ _ Hall), (leading_2d _ _ _ Ha).
  eexists. split; [done|]. split; [done|]. intros Hwf.
  set (rows := (λ i, concat (row i <$> a :: arrays)) <$> seq 0 (size_of [n])).
  assert (Hsz : size_of [n] = n) by (simpl; lia).
  assert (Hrows : ∀ i, i < n → rows !! i = Some (concat (row i <$> a :: arrays))).
  { intros i Hi. unfold rows. rewrite list_lookup_fmap, lookup_seq_lt by lia. done. }
  assert (Hlen : length <$> rows = replicate n (sum_list (w :: cols))).
  { unfold rows. rewrite Hsz. apply list_eq. intros i.
    rewrite !list_lookup_fmap.
    destruct (decide (i < n)) as [Hi|Hi].
    - rewrite lookup_seq_lt, lookup_replicate_2 by done. simpl. f_equal.
      by apply (length_concat_rows (a :: arrays) (w :: cols) n).
    - rewrite lookup_seq_ge by lia.
      by rewrite (proj1 (lookup_replicate_None _ _ _)) by lia. }
  split.
  - unfold wf. simpl. fold rows.
    rewrite length_concat_sum, Hlen, sum_list_replicate. simpl. lia.
  - intros p b w' i j Hp Hw' Hi Hj.
    assert (Hoff : sum_list (take p (w :: cols)) + j < sum_list (w :: cols)).
    { rewrite <-(take_drop_middle _ _ _ Hw') at 2.
      rewrite sum_list_with_app. simpl. lia. }
    trans (concat rows !! (sum_list (length <$> take i rows)
                           + (sum_list (take p (w :: cols)) + j))).
    { unfold entry, last_dim. simpl. fold rows. f_equal.
      rewrite fmap_take, Hlen, take_replicate, sum_list_replicate. simpl. lia. }
    rewrite (lookup_concat_at rows i _ _ (Hrows i Hi))
      by (by rewrite (length_concat_rows _ (w :: cols) n)).
    rewrite <-(row_lengths (a :: arrays) (w :: cols) n i Hall Hwf Hi) at 1.
    rewrite <-fmap_take.
    rewrite (lookup_concat_at (row i <$> a :: arrays) p (row i b)).
    + eapply lookup_row; [|done].
      by eapply (Forall2_lookup_lr _ _ _ _ _ _ Hall).
    + by rewrite list_lookup_fmap, Hp.
    + erewrite length_row; [done| |by eapply Forall_lookup_1|done].
      by eapply (Forall2_lookup_lr _ _ _ _ _ _ Hall).
Qed.
End ndarray_facts.

(** ** The flat configuration *)

Section flat_facts.
Context {V Ext : Type}.
Local Abbreviation value := (value V).
Local Abbreviation obj := (obj V Ext).
Local Abbreviation dict := (gmap string value).

Lemma lookup_prefixed (prefix : string) (d : dict) key v :
  prefixed prefix d !! key = Some v ↔ ∃ k, key = prefix +:+ k ∧ d !! k = Some v.
Proof. unfold prefixed. apply (lookup_kmap_Some _). Qed.

Lemma lookup_prefixed_key (prefix : string) (d : dict) k :
  prefixed prefix d !! (prefix +:+ k) = d !! k.
Proof. unfold prefixed. apply (lookup_kmap _). Qed.

(** With keys that do not meet after prefixing, the configuration of
    [DPNetsModule] holds the entries of the five mappings and nothing
    else. *)
Lemma DPNets_flat_lookup (mh mh2 oh sh sc : dict) key v :
  mh ##ₘ prefixed "model_2_" mh2 → mh ##ₘ prefixed "optim_" oh →
  mh ##ₘ prefixed "sched_" sh → mh ##ₘ prefixed "sched_" sc →
  prefixed "model_2_" mh2 ##ₘ prefixed "optim_" oh →
  prefixed "model_2_" mh2 ##ₘ prefixed "sched_" sh →
  prefixed "model_2_" mh2 ##ₘ prefixed "sched_" sc →
  prefixed "optim_" oh ##ₘ prefixed "sched_" sh →
  prefixed "optim_" oh ##ₘ prefixed "sched_" sc →
  prefixed "sched_" sh ##ₘ prefixed "sched_" sc →
  DPNets_flat mh mh2 oh sh sc !! key = Some v ↔
    mh !! key = Some v
    ∨ (∃ k, key = "model_2_" +:+ k ∧ mh2 !! k = Some v)
    ∨ (∃ k, key = "optim_" +:+ k ∧ oh !! k = Some v)
    ∨ (∃ k, key = "sched_" +:+ k ∧ sh !! k = Some v)
    ∨ (∃ k, key = "sched_" +:+ k ∧ sc !! k = Some v).
Proof.
  intros D1 D2 D3 D4 D5 D6 D7 D8 D9 D10. unfold DPNets_flat.
  rewrite (right_id_L ∅ (∪)).
  rewrite !lookup_union_Some, !lookup_prefixed.
  - tauto.
  - by apply map_disjoint_sym.
  - apply map_disjoint_union_r; split; by apply map_disjoint_sym.
  - apply map_disjoint_union_r; split; [by apply map_disjoint_sym|].
    apply map_disjoint_union_r; split; by apply map_disjoint_sym.
  - apply map_disjoint_union_r; split; [by apply map_disjoint_sym|].
    apply map_disjoint_union_r; split; [by apply map_disjoint_sym|].
    apply map_disjoint_union_r; split; by apply map_disjoint_sym.
Qed.

(** The later of two colliding inserts is the one that stays. *)
Lemma DPNets_flat_sched (mh mh2 oh sh sc : dict) k v :
  sc !! k = Some v → DPNets_flat mh mh2 oh sh sc !! ("sched_" +:+ k) = Some v.
Proof.
  intros Hk. unfold DPNets_flat.
  apply lookup_union_Some_l. by rewrite lookup_prefixed_key.
Qed.


(** [update] writes the entries and leaves the other keys alone. *)
Lemma update_lookup_other (entries : list (string * hparam V Ext))
    (d : gmap string (hparam V Ext)) key :
  key ∉ entries.*1 → update entries d !! key = d !! key.
Proof.
  unfold update. revert d.
  induction entries as [|[k v] entries IH]; intros d Hkey; [done|].
  rewrite fmap_cons in Hkey. apply not_elem_of_cons in Hkey as [Hne Hkey].
  simpl. rewrite (IH _ Hkey). by apply lookup_insert_ne.
Qed.

Lemma update_lookup_in (entries : list (string * hparam V Ext))
    (d : gmap string (hparam V Ext)) k v :
  NoDup entries.*1 → (k, v) ∈ entries → update entries d !! k = Some v.
Proof.
  unfold update. revert d.
  induction entries as [|[k' v'] entries IH]; intros d Hnd Hin.
  { by apply elem_of_nil in Hin. }
  rewrite fmap_cons in Hnd. apply NoDup_cons in Hnd as [Hk' Hnd].
  apply elem_of_cons in Hin as [[= <- <-]|Hin]; simpl.
  - fold (update entries (<[k:=v]> d)).
    rewrite (update_lookup_other _ _ _ Hk'). apply lookup_insert_eq.
  - by apply IH.
Qed.

Lemma DPNets_init_args_names mc lmh ofn loh lfn sfn lsh lsc mc2 lmh2 :
  (DPNetsModule.init_args (V:=V) (Ext:=Ext) mc lmh ofn loh lfn sfn lsh lsc mc2 lmh2).*1
  = DPNets_arg_names.
Proof. done. Qed.

Lemma Koopman_init_args_names mc lmh ofn loh lfn ke lkh dec ldh sfn lsh lsc :
  (KoopmanDNNModule.init_args (V:=V) (Ext:=Ext)
     mc lmh ofn loh lfn ke lkh dec ldh sfn lsh lsc).*1
  = Koopman_arg_names.
Proof. done. Qed.

(** Under a key that is no argument name the configuration holds what
    the loops wrote. *)
Lemma DPNets_hparams_other mc lmh ofn loh lfn sfn lsh lsc mc2 lmh2
    (mh mh2 oh sh sc : dict) key :
  key ∉ DPNets_arg_names →
  DPNets_hparams (Ext:=Ext) mc lmh ofn loh lfn sfn lsh lsc mc2 lmh2 mh mh2 oh sh sc
    !! key
  = HValue <$> DPNets_flat mh mh2 oh sh sc !! key.
Proof.
  intros Hkey. unfold DPNets_hparams, DPNetsModule.save_hyperparameters.
  rewrite update_lookup_other by (by rewrite DPNets_init_args_names).
  apply lookup_fmap.
Qed.

Lemma Koopman_hparams_other mc lmh ofn loh lfn ke lkh dec ldh sfn lsh lsc
    (oh kh dh sh sc : dict) key :
  key ∉ Koopman_arg_names →
  Koopman_hparams (Ext:=Ext) mc lmh ofn loh lfn ke lkh dec ldh sfn lsh lsc
    oh kh dh sh sc !! key
  = HValue <$> Koopman_flat oh kh dh sh sc !! key.
Proof.
  intros Hkey. unfold Koopman_hparams, KoopmanDNNModule.save_hyperparameters.
  rewrite update_lookup_other by (by rewrite Koopman_init_args_names).
  apply lookup_fmap.
Qed.

(** No argument is called like a prefixed key. *)
Lemma sched_not_arg k :
  (String.append "sched_" k ∉ DPNets_arg_names) ∧
  (String.append "sched_" k ∉ Koopman_arg_names).
Proof.
  unfold DPNets_arg_names, Koopman_arg_names.
  rewrite !not_elem_of_cons. repeat split; try done; apply not_elem_of_nil.
Qed.

Lemma optim_not_arg k :
  (String.append "optim_" k ∉ DPNets_arg_names) ∧
  (String.append "optim_" k ∉ Koopman_arg_names).
Proof.
  unfold DPNets_arg_names, Koopman_arg_names.
  rewrite !not_elem_of_cons. repeat split; try done; apply not_elem_of_nil.
Qed.

Lemma model_2_not_arg k : String.append "model_2_" k ∉ DPNets_arg_names.
Proof.
  unfold DPNets_arg_names.
  rewrite !not_elem_of_cons. repeat split; try done; apply not_elem_of_nil.
Qed.

Lemma koop_dec_not_arg k :
  (String.append "koop_" k ∉ Koopman_arg_names) ∧
  (String.append "dec_" k ∉ Koopman_arg_names).
Proof.
  unfold Koopman_arg_names.
  rewrite !not_elem_of_cons. repeat split; try done; apply not_elem_of_nil.
Qed.

(** What the two-encoder constructor leaves in [hparams]. *)
Lemma DPNets_init_flat (h : list obj) mc ofn lfn sfn
    (lmh loh lsh lsc lmh2 : loc) (mh oh sh sc mh2 : dict) s :
  h !! lmh = Some (DictObj mh) → h !! loh = Some (DictObj oh) →
  h !! lsh = Some (DictObj sh) → h !! lsc = Some (DictObj sc) →
  h !! lmh2 = Some (DictObj mh2) →
  nc_init mc mh = Ok s →
  ∃ m h',
    DPNetsModule.__init__ mc lmh ofn loh lfn sfn (Some lsh) (Some lsc)
      None (Some lmh2) h = Ok (m, h') ∧
    DPNetsModule.hparams m
    = DPNets_hparams mc lmh ofn loh lfn sfn lsh lsc None lmh2 mh mh2 oh sh sc.
Proof.
  intros Hmh Hoh Hsh Hsc Hmh2 Hs.
  rewrite (DPNets_init_run h mc ofn lfn sfn None _ _ _ _ _ _ _ _ _ _
             Hmh Hoh Hsh Hsc Hmh2), Hs.
  by eexists _, _.
Qed.


(** A constructed module holds mappings where [configure_optimizers]
    will look for them. *)
Lemma DPNets_init_wf (h h' : list obj) mc ofn lfn sfn mc2
    (lmh loh : loc) (osh osc omh2 : option loc) m :
  DPNetsModule.__init__ mc lmh ofn loh lfn sfn osh osc mc2 omh2 h = Ok (m, h') →
  ∃ oh sh sc : dict,
    h' !! DPNetsModule.optimizer_hyperparameters m = Some (DictObj oh) ∧
    h' !! DPNetsModule.scheduler_hyperparameters m = Some (DictObj sh) ∧
    h' !! DPNetsModule.scheduler_config m = Some (DictObj sc).
Proof.
  intros E.
  destruct (DPNets_init_args _ _ _ _ _ _ _ _ _ _ _ _ _ E)
    as (lsh&lsc&lmh2&mh&oh&sh&sc&mh2&->&->&->&Hmh&Hoh&Hsh&Hsc&Hmh2).
  rewrite (DPNets_init_run h mc ofn lfn sfn mc2 _ _ _ _ _ _ _ _ _ _
             Hmh Hoh Hsh Hsc Hmh2) in E.
  exists oh, sh, sc.
  destruct (nc_init mc mh) as [s|]; [|done].
  destruct mc2 as [c2|]; [destruct (nc_init c2 mh2); [|done]|];
    simplify_eq/=; rewrite <-?(assoc_L (++));
    by rewrite !(lookup_app_l_Some _ _ _ _ Hoh), !(lookup_app_l_Some _ _ _ _ Hsh),
         !(lookup_app_l_Some _ _ _ _ Hsc).
Qed.

Lemma Koopman_init_wf (h h' : list obj) mc ofn lfn ke dec sfn
    (lmh loh : loc) (okh odh osh osc : option loc) m :
  KoopmanDNNModule.__init__ mc lmh ofn loh lfn ke okh dec odh sfn osh osc h
  = Ok (m, h') →
  ∃ oh sh sc : dict,
    h' !! KoopmanDNNModule.optimizer_hyperparameters m = Some (DictObj oh) ∧
    h' !! KoopmanDNNModule.scheduler_hyperparameters m = Some (DictObj sh) ∧
    h' !! KoopmanDNNModule.scheduler_config m = Some (DictObj sc).
Proof.
  intros E.
  destruct (Koopman_init_args _ _ _ _ _ _ _ _ _ _ _ _ _ _ _ E)
    as (lkh&ldh&lsh&lsc&oh&kh&dh&sh&sc&->&->&->&->&Hmh&Hoh&Hkh&Hdh&Hsh&Hsc).
  rewrite (Koopman_init_run h mc ofn lfn ke dec sfn _ _ _ _ _ _ _ _ _ _ _
             Hmh Hoh Hkh Hdh Hsh Hsc) in E.
  exists oh, sh, sc.
  destruct (nc_init mc ∅) as [s|]; [|done]. simplify_eq/=.
  by rewrite !(lookup_app_l_Some _ _ _ _ Hoh), !(lookup_app_l_Some _ _ _ _ Hsh),
       !(lookup_app_l_Some _ _ _ _ Hsc).
Qed.
End flat_facts.

(** ** Construction *)

(** C1.  The specification asks of both constructors that the flat
    configuration hold the entries of all the mappings.  The
    single-encoder constructor does not get that far: given
    [model_hyperparameters = {'width': 8}] its first loop reads
    [self.hparamsxz] and raises, where the two-encoder constructor writes
    to [self.hparams]. *)
Theorem C1_Koopman_init_model_hyperparameters :
  KoopmanDNNModule.__init__ Samples.encoder 0 Samples.sgd 1 Samples.squared_error
    VNone (Some 4) VNone (Some 5) None (Some 6) (Some 6) Samples.store
  = Err (AttributeError "hparamsxz").
Proof. by apply (Koopman_init_nonempty _ _ _ _ _ _ _ _ _ _ _ _ _ {["width" := VPrim 8%Z]}). Qed.

(** The two-encoder constructor on the same mappings. *)
Example DPNets_init_model_hyperparameters :
  ∃ m h',
    DPNetsModule.__init__ Samples.encoder 0 Samples.sgd 1 Samples.squared_error
      None (Some 6) (Some 6) None (Some 4) Samples.store = Ok (m, h') ∧
    DPNetsModule.hparams m !! "width" = Some (HValue (VPrim 8%Z)) ∧
    DPNetsModule.hparams m !! "optim_lr" = Some (HValue (VPrim 1%Z)).
Proof.
  destruct (DPNets_init_flat Samples.store Samples.encoder Samples.sgd
              Samples.squared_error None 0 1 6 6 4 _ _ _ _ _ 0%Z
              eq_refl eq_refl eq_refl eq_refl eq_refl eq_refl)
    as (m & h' & E & Hfl).
  exists m, h'. split; [exact E|]. rewrite Hfl. split; by vm_compute.
Qed.

(** Where the loops run to their end, an entry of [scheduler_config]
    is what [hparams] holds under [sched_] and its key, whatever
    [scheduler_hyperparameters] had written there before. *)
Lemma DPNets_init_collision {V Ext} (h : list (obj V Ext)) mc ofn lfn sfn mc2
    (lmh loh lsh lsc lmh2 : loc) (mh oh sh sc mh2 : gmap string (value V)) s :
  h !! lmh = Some (DictObj mh) → h !! loh = Some (DictObj oh) →
  h !! lsh = Some (DictObj sh) → h !! lsc = Some (DictObj sc) →
  h !! lmh2 = Some (DictObj mh2) →
  nc_init mc mh = Ok s →
  (∀ c2, mc2 = Some c2 → is_ok (nc_init c2 mh2) = true) →
  ∃ m h',
    DPNetsModule.__init__ mc lmh ofn loh lfn sfn (Some lsh) (Some lsc)
      mc2 (Some lmh2) h = Ok (m, h') ∧
    ∀ k v, sc !! k = Some v →
      DPNetsModule.hparams m !! ("sched_" +:+ k) = Some (HValue v).
Proof.
  intros Hmh Hoh Hsh Hsc Hmh2 Hs Hc2.
  rewrite (DPNets_init_run h mc ofn lfn sfn mc2 _ _ _ _ _ _ _ _ _ _
             Hmh Hoh Hsh Hsc Hmh2), Hs.
  assert (Hlook : ∀ k v, sc !! k = Some v →
    DPNets_hparams mc lmh ofn loh lfn sfn lsh lsc mc2 lmh2 mh mh2 oh sh sc
      !! ("sched_" +:+ k) = Some (HValue v)).
  { intros k v Hk. rewrite DPNets_hparams_other by apply sched_not_arg.
    by rewrite (DPNets_flat_sched _ _ _ _ _ _ _ Hk). }
  destruct mc2 as [c2|]; [|by eexists _, _].
  specialize (Hc2 c2 eq_refl). destruct (nc_init c2 mh2); [|done].
  by eexists _, _.
Qed.




(** Leaving out the estimator, the decoder or the scheduler factory does
    not decide whether the single-encoder construction returns. *)
Lemma Koopman_init_optional {V Ext} (h : list (obj V Ext)) mc ofn lfn ke dec sfn
    ke' dec' sfn' (lmh loh : loc) (okh odh osh osc : option loc) :
  is_ok (KoopmanDNNModule.__init__ mc lmh ofn loh lfn ke okh dec odh sfn osh osc h)
  = is_ok (KoopmanDNNModule.__init__ mc lmh ofn loh lfn ke' okh dec' odh sfn' osh osc h).
Proof.
  assert (Himp : ∀ ke dec sfn ke' dec' sfn',
    is_ok (KoopmanDNNModule.__init__ mc lmh ofn loh lfn ke okh dec odh sfn osh osc h)
      = true →
    is_ok (KoopmanDNNModule.__init__ mc lmh ofn loh lfn ke' okh dec' odh sfn' osh osc h)
      = true).
  { clear. intros ke dec sfn ke' dec' sfn'.
    destruct (KoopmanDNNModule.__init__ mc lmh ofn loh lfn ke okh dec odh sfn osh osc h)
      as [[m h']|e] eqn:E; [intros _|done].
    destruct (Koopman_init_args _ _ _ _ _ _ _ _ _ _ _ _ _ _ _ E)
      as (lkh&ldh&lsh&lsc&oh&kh&dh&sh&sc&->&->&->&->&Hmh&Hoh&Hkh&Hdh&Hsh&Hsc).
    rewrite (Koopman_init_run h mc ofn lfn ke dec sfn _ _ _ _ _ _ _ _ _ _ _
               Hmh Hoh Hkh Hdh Hsh Hsc) in E.
    rewrite (Koopman_init_run h mc ofn lfn ke' dec' sfn' _ _ _ _ _ _ _ _ _ _ _
               Hmh Hoh Hkh Hdh Hsh Hsc).
    by destruct (nc_init mc ∅). }
  destruct (is_ok (KoopmanDNNModule.__init__ mc lmh ofn loh lfn ke okh dec odh
                     sfn osh osc h)) eqn:E1.
  - symmetry. by eapply Himp.
  - destruct (is_ok (KoopmanDNNModule.__init__ mc lmh ofn loh lfn ke' okh dec' odh
                       sfn' osh osc h)) eqn:E2; [|done].
    rewrite <-E1. by eapply Himp.
Qed.

(** C8.  The mappings that default to [None] have to be given: without
    one of them either constructor raises in the hyperparameter loops,
    whatever the other arguments, [model_class_2] and [scheduler_fn]
    included.  What may be left out is [scheduler_fn] and [model_class_2]
    in the two-encoder constructor, and the estimator, the decoder and
    [scheduler_fn] in the single-encoder one, where they have no part in
    whether the construction returns. *)
Theorem C8_mappings_required {V Ext} (h : list (obj V Ext)) :
  (∀ mc ofn lfn sfn mc2 (lmh loh : loc) (osh osc omh2 : option loc),
     osh = None ∨ osc = None ∨ omh2 = None →
     DPNetsModule.__init__ mc lmh ofn loh lfn sfn osh osc mc2 omh2 h
     = Err (AttributeError "items")) ∧
  (∀ mc ofn lfn ke dec sfn (lmh loh : loc) (okh odh osh osc : option loc),
     okh = None ∨ odh = None ∨ osh = None ∨ osc = None →
     ∃ attr,
       KoopmanDNNModule.__init__ mc lmh ofn loh lfn ke okh dec odh sfn osh osc h
       = Err (AttributeError attr)) ∧
  (∀ mc ofn lfn (lmh loh lsh lsc lmh2 : loc) (mh oh sh sc mh2 : gmap string (value V)) s,
     h !! lmh = Some (DictObj mh) → h !! loh = Some (DictObj oh) →
     h !! lsh = Some (DictObj sh) → h !! lsc = Some (DictObj sc) →
     h !! lmh2 = Some (DictObj mh2) →
     nc_init mc mh = Ok s →
     is_ok (DPNetsModule.__init__ mc lmh ofn loh lfn None (Some lsh) (Some lsc)
              None (Some lmh2) h) = true) ∧
  (∀ mc ofn lfn ke dec sfn (lmh loh : loc) (okh odh osh osc : option loc),
     is_ok (KoopmanDNNModule.__init__ mc lmh ofn loh lfn ke okh dec odh sfn osh osc h)
     = is_ok (KoopmanDNNModule.__init__ mc lmh ofn loh lfn VNone okh VNone odh
                None osh osc h)).
Proof.
  split; [|split; [|split]].
  - intros. by apply DPNets_init_None.
  - intros. by apply Koopman_init_None.
  - intros mc ofn lfn lmh loh lsh lsc lmh2 mh oh sh sc mh2 s Hmh Hoh Hsh Hsc Hmh2 Hs.
    destruct (DPNets_init_flat h mc ofn lfn None _ _ _ _ _ _ _ _ _ _ s
                Hmh Hoh Hsh Hsc Hmh2 Hs) as (m & h' & -> & _). done.
  - intros. apply Koopman_init_optional.
Qed.

(** On the sample store: each omitted mapping raises; with all mappings
    given and the optional arguments left out both constructions return
    (the single-encoder one on an empty model mapping). *)
Lemma C8_mappings_required_witness :
  DPNetsModule.__init__ Samples.encoder 0 Samples.sgd 1 Samples.squared_error
    None None (Some 3) None (Some 4) Samples.store = Err (AttributeError "items") ∧
  (∃ attr,
     KoopmanDNNModule.__init__ Samples.encoder 4 Samples.sgd 1 Samples.squared_error
       VNone None VNone (Some 5) None (Some 2) (Some 3) Samples.store
     = Err (AttributeError attr)) ∧
  is_ok (DPNetsModule.__init__ Samples.encoder 0 Samples.sgd 1 Samples.squared_error
           None (Some 2) (Some 3) None (Some 4) Samples.store) = true ∧
  is_ok (KoopmanDNNModule.__init__ Samples.encoder 4 Samples.sgd 1
           Samples.squared_error (VRef 0) (Some 5) (VRef 0) (Some 6)
           (Some Samples.step_lr) (Some 2) (Some 3) Samples.store) = true.
Proof.
  destruct (C8_mappings_required Samples.store) as (H1 & H2 & H3 & H4).
  split; [|split; [|split]].
  - apply H1. by left.
  - apply H2. by left.
  - eapply H3; reflexivity.
  - rewrite H4. reflexivity.
Defined.

(** C2.  With [model_class_2] left out, [model_2] is the object [model]
    is; with [model_class_2] given, it is another object, the one
    [model_class_2] built from [model_hyperparameters_2], which did not
    exist before.  No operation run afterwards changes which objects the
    two attributes name. *)
Theorem C2_model_2_identity {V Ext} p (h : list (obj V Ext)) mc ofn lfn sfn
    (lmh loh lsh lsc lmh2 : loc) (mh oh sh sc mh2 : gmap string (value V)) s :
  h !! lmh = Some (DictObj mh) → h !! loh = Some (DictObj oh) →
  h !! lsh = Some (DictObj sh) → h !! lsc = Some (DictObj sc) →
  h !! lmh2 = Some (DictObj mh2) →
  nc_init mc mh = Ok s →
  (∃ m h',
     DPNetsModule.__init__ mc lmh ofn loh lfn sfn (Some lsh) (Some lsc)
       None (Some lmh2) h = Ok (m, h') ∧
     DPNetsModule.model_2 m = DPNetsModule.model m ∧
     ∀ m'' h'', rtc (DPNets_step p) (m, h') (m'', h'') →
       DPNetsModule.model_2 m'' = DPNetsModule.model m'') ∧
  (∀ c2 s2, nc_init c2 mh2 = Ok s2 →
     ∃ m h',
       DPNetsModule.__init__ mc lmh ofn loh lfn sfn (Some lsh) (Some lsc)
         (Some c2) (Some lmh2) h = Ok (m, h') ∧
       DPNetsModule.model_2 m ≠ DPNetsModule.model m ∧
       h !! DPNetsModule.model_2 m = None ∧
       h' !! DPNetsModule.model_2 m = Some (NetObj c2 s2) ∧
       ∀ m'' h'', rtc (DPNets_step p) (m, h') (m'', h'') →
         DPNetsModule.model_2 m'' ≠ DPNetsModule.model m'' ∧
         ∃ s2', h'' !! DPNetsModule.model_2 m'' = Some (NetObj c2 s2')).
Proof.
  intros Hmh Hoh Hsh Hsc Hmh2 Hs. split.
  - eexists _, _. split.
    { rewrite (DPNets_init_run h mc ofn lfn sfn None _ _ _ _ _ _ _ _ _ _
                 Hmh Hoh Hsh Hsc Hmh2), Hs. done. }
    split; [done|]. intros m'' h'' Hsteps.
    apply DPNets_steps_frame in Hsteps as [Hm _]. simpl in Hm. by rewrite Hm.
  - intros c2 s2 Hs2. eexists _, _. split.
    { rewrite (DPNets_init_run h mc ofn lfn sfn (Some c2) _ _ _ _ _ _ _ _ _ _
                 Hmh Hoh Hsh Hsc Hmh2), Hs, Hs2. done. }
    assert (Hnew : ((h ++ [NetObj mc s]) ++ [NetObj c2 s2]) !! S (length h)
                   = Some (NetObj c2 s2)).
    { rewrite lookup_app_r by (rewrite length_app; simpl; lia).
      rewrite length_app. simpl.
      by replace (S (length h) - (length h + 1)) with 0 by lia. }
    simpl. split; [lia|]. split; [apply lookup_ge_None; lia|]. split; [done|].
    intros m'' h'' Hsteps.
    apply DPNets_steps_frame in Hsteps as [Hm Hev]. simpl in Hm, Hev. rewrite Hm.
    simpl. split; [lia|]. apply (Hev _ _ Hnew).
Qed.

Lemma C2_model_2_identity_witness :
  (∃ m h',
     DPNetsModule.__init__ Samples.encoder 0 Samples.sgd 1 Samples.squared_error
       None (Some 2) (Some 3) None (Some 4) Samples.store = Ok (m, h') ∧
     DPNetsModule.model_2 m = DPNetsModule.model m ∧
     ∀ m'' h'', rtc (DPNets_step Samples.dp_parameters) (m, h') (m'', h'') →
       DPNetsModule.model_2 m'' = DPNetsModule.model m'') ∧
  (∃ m h',
     DPNetsModule.__init__ Samples.encoder 0 Samples.sgd 1 Samples.squared_error
       None (Some 2) (Some 3) (Some Samples.encoder) (Some 4) Samples.store
     = Ok (m, h') ∧
     DPNetsModule.model_2 m ≠ DPNetsModule.model m).
Proof.
  destruct (C2_model_2_identity Samples.dp_parameters Samples.store Samples.encoder
              Samples.sgd Samples.squared_error None 0 1 2 3 4 _ _ _ _ _ 0%Z
              eq_refl eq_refl eq_refl eq_refl eq_refl eq_refl) as [H1 H2].
  split; [exact H1|].
  destruct (H2 Samples.encoder 0%Z eq_refl) as (m & h' & E & Hne & _).
  exists m, h'. split; [exact E | exact Hne].
Defined.

(** ** The step executors *)

(** C3.  The single-encoder [base_step] raises [NotImplementedError] on
    every module, batch, index and store, and so do the three steps that
    call it. *)
Theorem C3_Koopman_base_step_not_implemented {V Ext}
    (self : KoopmanDNNModule.t V Ext) (batch : gmap string (value V))
    (batch_idx : Z) (h : list (obj V Ext)) :
  KoopmanDNNModule.base_step self batch batch_idx h = Err NotImplementedError ∧
  KoopmanDNNModule.training_step self batch batch_idx h = Err NotImplementedError ∧
  KoopmanDNNModule.validation_step self batch batch_idx h = Err NotImplementedError ∧
  KoopmanDNNModule.test_step self batch batch_idx h = Err NotImplementedError.
Proof. repeat split. Qed.

(** C5.  On a batch with [x_value] and [y_value], [base_step] calls
    [model] on [{'x_value': batch['x_value']}] and [model_2] on
    [{'x_value': batch['y_value']}], takes [x_encoded] from each output and
    returns [{'loss': loss_fn(x_encoded, y_encoded)}]; the store afterwards
    shows the two calls.  [training_step] and [validation_step] are
    [base_step]. *)
Theorem C5_DPNets_base_step {V Ext} (self : DPNetsModule.t V Ext)
    (batch : gmap string (value V)) (batch_idx : Z) (h : list (obj V Ext))
    xv yv c1 s1 (out_x : gmap string (value V)) s1' xe
    c2 s2 (out_y : gmap string (value V)) s2' ye loss :
  batch !! "x_value" = Some xv → batch !! "y_value" = Some yv →
  h !! DPNetsModule.model self = Some (NetObj c1 s1) →
  nc_call c1 s1 {["x_value" := xv]} = Ok (out_x, s1') →
  out_x !! "x_encoded" = Some xe →
  <[DPNetsModule.model self := NetObj c1 s1']> h !! DPNetsModule.model_2 self
    = Some (NetObj c2 s2) →
  nc_call c2 s2 {["x_value" := yv]} = Ok (out_y, s2') →
  out_y !! "x_encoded" = Some ye →
  DPNetsModule.loss_fn self xe ye = Ok loss →
  DPNetsModule.base_step self batch batch_idx h
    = Ok ({["loss" := loss]},
          <[DPNetsModule.model_2 self := NetObj c2 s2']>
            (<[DPNetsModule.model self := NetObj c1 s1']> h)) ∧
  DPNetsModule.training_step self batch batch_idx h
    = DPNetsModule.base_step self batch batch_idx h ∧
  DPNetsModule.validation_step self batch batch_idx h
    = DPNetsModule.base_step self batch batch_idx h.
Proof.
  intros. split; [by eapply DPNets_base_step_run|].
  split; [apply DPNets_training_step_eq | apply DPNets_validation_step_eq].
Qed.

Lemma C5_DPNets_base_step_witness :
  DPNetsModule.base_step (Samples.dp_shared None)
    {["x_value" := VPrim 3%Z; "y_value" := VPrim 5%Z]} 0 Samples.store'
  = Ok ({["loss" := VPrim 4%Z]}, Samples.store ++ [NetObj Samples.encoder 2%Z]) ∧
  DPNetsModule.training_step (Samples.dp_shared None)
    {["x_value" := VPrim 3%Z; "y_value" := VPrim 5%Z]} 0 Samples.store'
  = DPNetsModule.base_step (Samples.dp_shared None)
      {["x_value" := VPrim 3%Z; "y_value" := VPrim 5%Z]} 0 Samples.store' ∧
  DPNetsModule.validation_step (Samples.dp_shared None)
    {["x_value" := VPrim 3%Z; "y_value" := VPrim 5%Z]} 0 Samples.store'
  = DPNetsModule.base_step (Samples.dp_shared None)
      {["x_value" := VPrim 3%Z; "y_value" := VPrim 5%Z]} 0 Samples.store'.
Proof.
  apply (C5_DPNets_base_step (Samples.dp_shared None)
           {["x_value" := VPrim 3%Z; "y_value" := VPrim 5%Z]} 0 Samples.store'
           (VPrim 3%Z) (VPrim 5%Z)
           Samples.encoder 0%Z {["x_encoded" := VPrim 3%Z]} 1%Z (VPrim 3%Z)
           Samples.encoder 1%Z {["x_encoded" := VPrim 5%Z]} 2%Z (VPrim 5%Z)
           (VPrim 4%Z));
    reflexivity.
Defined.

(** C7.  With one shared encoder whose output depends on its input
    alone, and a batch whose two samples are equal, the loss is [loss_fn]
    of the same encoding twice: whatever [loss_fn e e] is, zero for a
    distance. *)
Theorem C7_DPNets_base_step_shared {V Ext} (self : DPNetsModule.t V Ext)
    (batch : gmap string (value V)) (batch_idx : Z) (h : list (obj V Ext))
    v c s (out : gmap string (value V)) e loss :
  DPNetsModule.model_2 self = DPNetsModule.model self →
  h !! DPNetsModule.model self = Some (NetObj c s) →
  deterministic c →
  batch !! "x_value" = Some v → batch !! "y_value" = Some v →
  output (nc_call c s {["x_value" := v]}) = Ok out →
  out !! "x_encoded" = Some e →
  DPNetsModule.loss_fn self e e = Ok loss →
  outcome (DPNetsModule.base_step self batch batch_idx h) = Ok {["loss" := loss]}.
Proof.
  intros Hsame Hm Hdet Hx Hy Hout He Hloss.
  destruct (output_Ok _ _ Hout) as [s' Hc1].
  assert (Hm' : <[DPNetsModule.model self := NetObj c s']> h
                  !! DPNetsModule.model_2 self = Some (NetObj c s')).
  { rewrite Hsame. apply list_lookup_insert_eq. by eapply lookup_lt_Some. }
  destruct (output_Ok (nc_call c s' {["x_value" := v]}) out) as [s'' Hc2].
  { by rewrite (Hdet s' s). }
  by rewrite (DPNets_base_step_run self batch batch_idx h v v c s out s' e
                c s' out s'' e loss Hx Hy Hm Hc1 He Hm' Hc2 He Hloss).
Qed.

Lemma sample_encoder_deterministic : deterministic Samples.encoder.
Proof.
  intros s s' x. unfold Samples.encoder. simpl. by destruct (x !! "x_value").
Qed.

Lemma C7_DPNets_base_step_shared_witness :
  outcome (DPNetsModule.base_step (Samples.dp_shared None) Samples.batch 0
             Samples.store') = Ok {["loss" := VPrim 0%Z]}.
Proof.
  apply (C7_DPNets_base_step_shared (Samples.dp_shared None) Samples.batch 0
           Samples.store' (VPrim 3%Z) Samples.encoder 0%Z
           {["x_encoded" := VPrim 3%Z]} (VPrim 3%Z) (VPrim 0%Z));
    try reflexivity.
  exact sample_encoder_deterministic.
Defined.

(** ** What [configure_optimizers] returns and leaves alone *)

(** C4.  On a module whose stored hyperparameters are mappings, as
    construction leaves them ([DPNets_init_wf], [Koopman_init_wf]):
    without a scheduler factory the method returns the new optimizer
    [optimizer_fn(parameters, **optimizer_hyperparameters)] alone; with
    one it returns [[optimizer], [config]], where [config] is a new
    dictionary with the entries of [scheduler_config] and, under
    ['scheduler'], the new scheduler
    [scheduler_fn(optimizer, **scheduler_hyperparameters)]. *)
Theorem C4_configure_optimizers {V Ext} (h : list (obj V Ext))
    (oh sh sc : gmap string (value V)) :
  (∀ p (self : DPNetsModule.t V Ext) o,
     h !! DPNetsModule.optimizer_hyperparameters self = Some (DictObj oh) →
     DPNetsModule.scheduler_fn self = None →
     DPNetsModule.optimizer_fn self (p self h) oh = Ok o →
     DPNetsModule.configure_optimizers p self h
     = Ok (Bare (length h), h ++ [ExtObj o])) ∧
  (∀ p (self : DPNetsModule.t V Ext) o f s,
     h !! DPNetsModule.optimizer_hyperparameters self = Some (DictObj oh) →
     h !! DPNetsModule.scheduler_hyperparameters self = Some (DictObj sh) →
     h !! DPNetsModule.scheduler_config self = Some (DictObj sc) →
     DPNetsModule.scheduler_fn self = Some f →
     DPNetsModule.optimizer_fn self (p self h) oh = Ok o →
     f (length h) sh = Ok s →
     DPNetsModule.configure_optimizers p self h
     = Ok (WithScheduler [length h] [length h + 2],
           h ++ [ExtObj o; ExtObj s;
                 DictObj (<["scheduler" := VRef (length h + 1)]> sc)])) ∧
  (∀ p (self : KoopmanDNNModule.t V Ext) o,
     h !! KoopmanDNNModule.optimizer_hyperparameters self = Some (DictObj oh) →
     KoopmanDNNModule.scheduler_fn self = None →
     KoopmanDNNModule.optimizer_fn self (p self h) oh = Ok o →
     KoopmanDNNModule.configure_optimizers p self h
     = Ok (Bare (length h), h ++ [ExtObj o])) ∧
  (∀ p (self : KoopmanDNNModule.t V Ext) o f s,
     h !! KoopmanDNNModule.optimizer_hyperparameters self = Some (DictObj oh) →
     h !! KoopmanDNNModule.scheduler_hyperparameters self = Some (DictObj sh) →
     h !! KoopmanDNNModule.scheduler_config self = Some (DictObj sc) →
     KoopmanDNNModule.scheduler_fn self = Some f →
     KoopmanDNNModule.optimizer_fn self (p self h) oh = Ok o →
     f (length h) sh = Ok s →
     KoopmanDNNModule.configure_optimizers p self h
     = Ok (WithScheduler [length h] [length h + 2],
           h ++ [ExtObj o; ExtObj s;
                 DictObj (<["scheduler" := VRef (length h + 1)]> sc)])).
Proof.
  split; [|split; [|split]]; intros.
  - by eapply DPNets_configure_bare.
  - by eapply DPNets_configure_scheduler.
  - by eapply Koopman_configure_bare.
  - by eapply Koopman_configure_scheduler.
Qed.

(** The modules the constructors build on the sample store. *)
Example sample_dp_shared_constructed sfn :
  DPNetsModule.__init__ Samples.encoder 0 Samples.sgd 1 Samples.squared_error sfn
    (Some 2) (Some 3) None (Some 4) Samples.store
  = Ok (Samples.dp_shared sfn, Samples.store').
Proof.
  rewrite (DPNets_init_run Samples.store Samples.encoder Samples.sgd
             Samples.squared_error sfn None 0 1 2 3 4 _ _ _ _ _
             eq_refl eq_refl eq_refl eq_refl eq_refl).
  reflexivity.
Qed.

Example sample_koopman_constructed sfn :
  KoopmanDNNModule.__init__ Samples.encoder 4 Samples.sgd 1 Samples.squared_error
    VNone (Some 5) VNone (Some 6) sfn (Some 2) (Some 3) Samples.store
  = Ok (Samples.koopman sfn, Samples.store').
Proof.
  rewrite (Koopman_init_run Samples.store Samples.encoder Samples.sgd
             Samples.squared_error VNone VNone sfn 4 1 5 6 2 3 _ _ _ _ _
             eq_refl eq_refl eq_refl eq_refl eq_refl eq_refl).
  reflexivity.
Qed.

Lemma C4_configure_optimizers_witness :
  DPNetsModule.configure_optimizers Samples.dp_parameters (Samples.dp_shared None)
    Samples.store'
  = Ok (Bare 8, Samples.store' ++ [ExtObj 10%Z]) ∧
  DPNetsModule.configure_optimizers Samples.dp_parameters
    (Samples.dp_shared (Some Samples.step_lr)) Samples.store'
  = Ok (WithScheduler [8] [10],
        Samples.store' ++
          [ExtObj 10%Z; ExtObj 20%Z;
           DictObj (<["scheduler" := VRef 9]> {["interval" := VPrim 5%Z]})]) ∧
  KoopmanDNNModule.configure_optimizers Samples.koopman_parameters
    (Samples.koopman None) Samples.store'
  = Ok (Bare 8, Samples.store' ++ [ExtObj 10%Z]) ∧
  KoopmanDNNModule.configure_optimizers Samples.koopman_parameters
    (Samples.koopman (Some Samples.step_lr)) Samples.store'
  = Ok (WithScheduler [8] [10],
        Samples.store' ++
          [ExtObj 10%Z; ExtObj 20%Z;
           DictObj (<["scheduler" := VRef 9]> {["interval" := VPrim 5%Z]})]).
Proof.
  destruct (C4_configure_optimizers Samples.store' {["lr" := VPrim 1%Z]}
              {["gamma" := VPrim 2%Z; "interval" := VPrim 7%Z]}
              {["interval" := VPrim 5%Z]}) as (H1 & H2 & H3 & H4).
  split; [|split; [|split]].
  - exact (H1 Samples.dp_parameters (Samples.dp_shared None) 10%Z
             eq_refl eq_refl eq_refl).
  - exact (H2 Samples.dp_parameters (Samples.dp_shared (Some Samples.step_lr))
             10%Z Samples.step_lr 20%Z eq_refl eq_refl eq_refl eq_refl eq_refl eq_refl).
  - exact (H3 Samples.koopman_parameters (Samples.koopman None) 10%Z
             eq_refl eq_refl eq_refl).
  - exact (H4 Samples.koopman_parameters (Samples.koopman (Some Samples.step_lr))
             10%Z Samples.step_lr 20%Z eq_refl eq_refl eq_refl eq_refl eq_refl eq_refl).
Defined.

(** What appending the three new objects does to the store. *)
Lemma configure_frame {V Ext} (h : list (obj V Ext)) lsc
    (sc : gmap string (value V)) o s :
  h !! lsc = Some (DictObj sc) →
  let h' := h ++ [ExtObj o; ExtObj s;
                  DictObj (<["scheduler" := VRef (length h + 1)]> sc)] in
  length h + 2 ≠ lsc ∧
  h !! (length h + 2) = None ∧
  h' !! (length h + 2) = Some (DictObj (<["scheduler" := VRef (length h + 1)]> sc)) ∧
  (∀ l x, h !! l = Some x → h' !! l = Some x).
Proof.
  intros Hsc h'. pose proof (lookup_lt_Some _ _ _ Hsc).
  split; [lia|]. split; [apply lookup_ge_None; lia|]. split.
  - unfold h'. rewrite lookup_app_r by lia.
    by replace (length h + 2 - length h) with 2 by lia.
  - intros l x. apply lookup_app_l_Some.
Qed.

(** C10.  The scheduler goes into a copy: the configuration returned is
    a new object, the stored [scheduler_config] and every other object
    that existed are as they were, and a second call starts again from
    the stored entries.  A stored configuration without a ['scheduler']
    key therefore never gets one. *)
Theorem C10_scheduler_config_unchanged {V Ext} (h : list (obj V Ext))
    (oh sh sc : gmap string (value V)) :
  (∀ p (self : DPNetsModule.t V Ext) o f s,
     h !! DPNetsModule.optimizer_hyperparameters self = Some (DictObj oh) →
     h !! DPNetsModule.scheduler_hyperparameters self = Some (DictObj sh) →
     h !! DPNetsModule.scheduler_config self = Some (DictObj sc) →
     DPNetsModule.scheduler_fn self = Some f →
     DPNetsModule.optimizer_fn self (p self h) oh = Ok o →
     f (length h) sh = Ok s →
     ∃ h',
       DPNetsModule.configure_optimizers p self h
       = Ok (WithScheduler [length h] [length h + 2], h') ∧
       length h + 2 ≠ DPNetsModule.scheduler_config self ∧
       h !! (length h + 2) = None ∧
       h' !! (length h + 2)
         = Some (DictObj (<["scheduler" := VRef (length h + 1)]> sc)) ∧
       h' !! DPNetsModule.scheduler_config self = Some (DictObj sc) ∧
       (∀ l x, h !! l = Some x → h' !! l = Some x) ∧
       ∀ o2 s2,
         DPNetsModule.optimizer_fn self (p self h') oh = Ok o2 →
         f (length h') sh = Ok s2 →
         ∃ h'',
           DPNetsModule.configure_optimizers p self h'
           = Ok (WithScheduler [length h'] [length h' + 2], h'') ∧
           h'' !! (length h' + 2)
             = Some (DictObj (<["scheduler" := VRef (length h' + 1)]> sc)) ∧
           h'' !! DPNetsModule.scheduler_config self = Some (DictObj sc)) ∧
  (∀ p (self : KoopmanDNNModule.t V Ext) o f s,
     h !! KoopmanDNNModule.optimizer_hyperparameters self = Some (DictObj oh) →
     h !! KoopmanDNNModule.scheduler_hyperparameters self = Some (DictObj sh) →
     h !! KoopmanDNNModule.scheduler_config self = Some (DictObj sc) →
     KoopmanDNNModule.scheduler_fn self = Some f →
     KoopmanDNNModule.optimizer_fn self (p self h) oh = Ok o →
     f (length h) sh = Ok s →
     ∃ h',
       KoopmanDNNModule.configure_optimizers p self h
       = Ok (WithScheduler [length h] [length h + 2], h') ∧
       length h + 2 ≠ KoopmanDNNModule.scheduler_config self ∧
       h !! (length h + 2) = None ∧
       h' !! (length h + 2)
         = Some (DictObj (<["scheduler" := VRef (length h + 1)]> sc)) ∧
       h' !! KoopmanDNNModule.scheduler_config self = Some (DictObj sc) ∧
       (∀ l x, h !! l = Some x → h' !! l = Some x) ∧
       ∀ o2 s2,
         KoopmanDNNModule.optimizer_fn self (p self h') oh = Ok o2 →
         f (length h') sh = Ok s2 →
         ∃ h'',
           KoopmanDNNModule.configure_optimizers p self h'
           = Ok (WithScheduler [length h'] [length h' + 2], h'') ∧
           h'' !! (length h' + 2)
             = Some (DictObj (<["scheduler" := VRef (length h' + 1)]> sc)) ∧
           h'' !! KoopmanDNNModule.scheduler_config self = Some (DictObj sc)).
Proof.
  split; intros p self o f s Hoh Hsh Hsc Hf Ho Hs.
  - destruct (configure_frame h _ sc o s Hsc) as (Hne & Hfresh & Hcfg & Hframe).
    eexists. split; [by eapply DPNets_configure_scheduler|].
    do 3 (split; [done|]). split; [by apply Hframe|]. split; [done|].
    intros o2 s2 Ho2 Hs2.
    destruct (configure_frame _ _ sc o2 s2 (Hframe _ _ Hsc))
      as (_ & _ & Hcfg2 & Hframe2).
    eexists. split.
    { eapply DPNets_configure_scheduler; [by apply Hframe..|done|done|done]. }
    split; [done|]. by apply Hframe2, Hframe.
  - destruct (configure_frame h _ sc o s Hsc) as (Hne & Hfresh & Hcfg & Hframe).
    eexists. split; [by eapply Koopman_configure_scheduler|].
    do 3 (split; [done|]). split; [by apply Hframe|]. split; [done|].
    intros o2 s2 Ho2 Hs2.
    destruct (configure_frame _ _ sc o2 s2 (Hframe _ _ Hsc))
      as (_ & _ & Hcfg2 & Hframe2).
    eexists. split.
    { eapply Koopman_configure_scheduler; [by apply Hframe..|done|done|done]. }
    split; [done|]. by apply Hframe2, Hframe.
Qed.

Lemma C10_scheduler_config_unchanged_witness :
  (∃ h',
     DPNetsModule.configure_optimizers Samples.dp_parameters
       (Samples.dp_shared (Some Samples.step_lr)) Samples.store'
     = Ok (WithScheduler [8] [10], h') ∧
     h' !! 3 = Some (DictObj {["interval" := VPrim 5%Z]}) ∧
     ∃ h'',
       DPNetsModule.configure_optimizers Samples.dp_parameters
         (Samples.dp_shared (Some Samples.step_lr)) h'
       = Ok (WithScheduler [length h'] [length h' + 2], h'') ∧
       h'' !! (length h' + 2)
         = Some (DictObj (<["scheduler" := VRef (length h' + 1)]>
                            {["interval" := VPrim 5%Z]})) ∧
       h'' !! 3 = Some (DictObj {["interval" := VPrim 5%Z]})) ∧
  (∃ h',
     KoopmanDNNModule.configure_optimizers Samples.koopman_parameters
       (Samples.koopman (Some Samples.step_lr)) Samples.store'
     = Ok (WithScheduler [8] [10], h') ∧
     h' !! 3 = Some (DictObj {["interval" := VPrim 5%Z]})).
Proof.
  destruct (C10_scheduler_config_unchanged Samples.store' {["lr" := VPrim 1%Z]}
              {["gamma" := VPrim 2%Z; "interval" := VPrim 7%Z]}
              {["interval" := VPrim 5%Z]}) as [H1 H2].
  split.
  - destruct (H1 Samples.dp_parameters (Samples.dp_shared (Some Samples.step_lr))
                10%Z Samples.step_lr 20%Z
                eq_refl eq_refl eq_refl eq_refl eq_refl eq_refl)
      as (h' & E & _ & _ & _ & Hsc & _ & Hagain).
    exists h'. split; [exact E|]. split; [exact Hsc|].
    destruct (Hagain 10%Z 20%Z eq_refl eq_refl) as (h'' & E2 & Hcfg2 & Hsc2).
    exists h''. split; [exact E2|]. split; [exact Hcfg2 | exact Hsc2].
  - destruct (H2 Samples.koopman_parameters (Samples.koopman (Some Samples.step_lr))
                10%Z Samples.step_lr 20%Z
                eq_refl eq_refl eq_refl eq_refl eq_refl eq_refl)
      as (h' & E & _ & _ & _ & Hsc & _).
    exists h'. split; [exact E | exact Hsc].
Defined.

(** ** [ConcatenateFeatureMaps] *)

Lemma atleast_2d_wf {A} (a : ndarray A) : wf a → wf (atleast_2d a).
Proof.
  unfold wf, atleast_2d. destruct (shape a) as [|k [|k' s]] eqn:Hs; simpl.
  - done.
  - lia.
  - by rewrite Hs.
Qed.

(** C9.  For a sequence of feature maps that is not empty and whose
    outputs on [X], made two-dimensional, have shapes [(n, a_1)], ...,
    [(n, a_k)], the call returns an array of shape [(n, a_1 + ... + a_k)]
    that holds, in each row, the rows of the outputs one after the
    other. *)
Theorem C9_ConcatenateFeatureMaps_call {A} (feature_maps : list (FeatureMap A))
    (X : ndarray A) (n : nat) (cols : list nat) :
  feature_maps ≠ [] →
  Forall2 (λ fm w, shape (atleast_2d (fm X)) = [n; w]) feature_maps cols →
  Forall (λ fm, wf (fm X)) feature_maps →
  ∃ R,
    ConcatenateFeatureMaps.__call__ (ConcatenateFeatureMaps.__init__ feature_maps) X
    = Ok R ∧
    shape R = [n; sum_list cols] ∧
    wf R ∧
    ∀ p fm w i j,
      feature_maps !! p = Some fm → cols !! p = Some w → i < n → j < w →
      entry R i (sum_list (take p cols) + j) = entry (atleast_2d (fm X)) i j.
Proof.
  intros Hne Hs Hwf.
  unfold ConcatenateFeatureMaps.__call__, ConcatenateFeatureMaps.__init__. simpl.
  destruct (concatenate_last_2d ((λ fm, atleast_2d (fm X)) <$> feature_maps) cols n)
    as (R & E & HR & Hrest).
  { by destruct feature_maps. }
  { by apply Forall2_fmap_l. }
  exists R. split; [done|]. split; [done|].
  destruct Hrest as [HwfR Hentry].
  { apply Forall_fmap. eapply Forall_impl; [done|].
    intros fm. apply atleast_2d_wf. }
  split; [done|]. intros p fm w i j Hp Hw Hi Hj.
  apply (Hentry p _ w i j); [|done..].
  rewrite list_lookup_fmap. unfold FeatureMap in *. by rewrite Hp.
Qed.

Lemma C9_ConcatenateFeatureMaps_call_witness :
  ∃ R,
    ConcatenateFeatureMaps.__call__
      (ConcatenateFeatureMaps.__init__ FeatureSamples.feature_maps) FeatureSamples.X
    = Ok R ∧
    shape R = [2; 3] ∧
    wf R ∧
    entry R 1 2 = Some 7%Z.
Proof.
  destruct (C9_ConcatenateFeatureMaps_call FeatureSamples.feature_maps
              FeatureSamples.X 2 [2; 1]) as (R & E & Hs & Hwf & Hentry).
  - discriminate.
  - repeat constructor.
  - repeat constructor.
  - exists R. split; [exact E|]. split; [exact Hs|]. split; [exact Hwf|].
    exact (Hentry 1 FeatureSamples.row_sums 1 1 0 eq_refl eq_refl
             (le_n 2) (le_n 1)).
Defined.

(** * Further properties *)

(** ** The feature maps on arrays of any dimension *)

Section ndarray_more.
Context {A : Type}.
Implicit Types (a b : ndarray A) (arrays : list (ndarray A)).

Lemma atleast_2d_shape_ne a : shape (atleast_2d a) ≠ [].
Proof.
  unfold atleast_2d. destruct (shape a) as [|k [|k' s]] eqn:Hs; simpl; try done.
  by rewrite Hs.
Qed.

Lemma atleast_2d_data a : data (atleast_2d a) = data a.
Proof. unfold atleast_2d. by destruct (shape a) as [|k [|k' s]]. Qed.

Lemma atleast_2d_ndim a : 2 ≤ length (shape (atleast_2d a)).
Proof.
  unfold atleast_2d. destruct (shape a) as [|k [|k' s]] eqn:Hs; simpl; try lia.
  rewrite Hs. simpl. lia.
Qed.

Lemma atleast_2d_id a : 2 ≤ length (shape a) → atleast_2d a = a.
Proof.
  unfold atleast_2d. destruct (shape a) as [|k [|k' s]]; simpl; try lia. done.
Qed.

Lemma shape_leading_last a : shape a ≠ [] → shape a = leading a ++ [last_dim a].
Proof. intros Hs. unfold leading, last_dim. by apply app_removelast_last. Qed.

Lemma size_of_snoc (s : list nat) w : size_of (s ++ [w]) = size_of s * w.
Proof. induction s as [|k s IH]; simpl; [lia|]. rewrite IH. lia. Qed.

Lemma wf_length a :
  shape a ≠ [] → wf a → length (data a) = size_of (leading a) * last_dim a.
Proof.
  intros Hs Hwf. unfold wf in Hwf.
  by rewrite Hwf, (shape_leading_last a Hs) at 1; rewrite size_of_snoc.
Qed.

Lemma length_row_nd a i :
  shape a ≠ [] → wf a → i < size_of (leading a) → length (row i a) = last_dim a.
Proof.
  intros Hs Hwf Hi. unfold row.
  rewrite length_take, length_drop, (wf_length a Hs Hwf). nia.
Qed.

(** Cutting the entries into runs and putting the runs back. *)
Lemma concat_runs (l : list A) n w :
  length l = n * w →
  concat ((λ i, take w (drop (i * w) l)) <$> seq 0 n) = l.
Proof.
  revert l. induction n as [|n IH]; intros l Hl.
  - simpl in *. by destruct l.
  - rewrite <-cons_seq, fmap_cons, <-fmap_S_seq, <-list_fmap_compose. simpl.
    trans (take w l ++ drop w l); [|apply take_drop]. f_equal.
    etrans; [|apply (IH (drop w l)); rewrite length_drop; lia].
    f_equal. apply list_fmap_ext. intros _ i _. simpl.
    by rewrite drop_drop.
Qed.
End ndarray_more.

Section feature_maps_more.
Context {A : Type}.
Implicit Types (a b : ndarray A) (arrays : list (ndarray A)).

Lemma same_leading_Forall a arrays :
  forallb (same_leading a) arrays = true ↔
  Forall (λ b, shape b ≠ [] ∧ leading b = leading a) arrays.
Proof.
  induction arrays as [|b arrays IH]; simpl.
  - split; [by constructor | done].
  - rewrite andb_true_iff, IH, Forall_cons. unfold same_leading.
    by rewrite bool_decide_eq_true.
Qed.

Lemma length_concat_uniform (f : nat → list A) j n w :
  (∀ i, j ≤ i < j + n → length (f i) = w) →
  length (concat (f <$> seq j n)) = n * w.
Proof.
  revert j. induction n as [|n IH]; intros j Hf; [done|].
  rewrite <-cons_seq, fmap_cons, concat_cons, length_app, (Hf j) by lia.
  rewrite (IH (S j)) by (intros i Hi; apply Hf; lia). lia.
Qed.

Lemma length_concat_rows_nd a arrays i :
  Forall (λ b, shape b ≠ [] ∧ leading b = leading a) arrays →
  Forall wf arrays → i < size_of (leading a) →
  length (concat (row i <$> arrays)) = sum_list (last_dim <$> arrays).
Proof.
  intros Hs Hwf Hi. induction Hs as [|b arrays [Hb Hl] _ IH]; [done|].
  apply Forall_cons in Hwf as [Hwb Hwf].
  rewrite !fmap_cons, concat_cons, length_app, IH by done.
  rewrite (length_row_nd b i Hb Hwb) by (by rewrite Hl). done.
Qed.

(** What [concatenate_last] returns when it returns. *)
Lemma concatenate_last_Ok arrays r :
  concatenate_last arrays = Ok r →
  ∃ a rest, arrays = a :: rest ∧ shape a ≠ [] ∧
    Forall (λ b, shape b ≠ [] ∧ leading b = leading a) arrays ∧
    shape r = leading a ++ [sum_list (last_dim <$> arrays)] ∧
    data r = concat ((λ i, concat (row i <$> arrays))
                       <$> seq 0 (size_of (leading a))).
Proof.
  unfold concatenate_last. destruct arrays as [|a rest]; [done|].
  case_bool_decide as Ha; [done|].
  destruct (forallb (same_leading a) rest) eqn:Hall; [|done].
  intros [= <-]. exists a, rest. split; [done|]. split; [done|].
  split; [|done]. apply Forall_cons. split; [done|].
  by apply same_leading_Forall.
Qed.

Lemma concatenate_last_wf arrays r :
  concatenate_last arrays = Ok r → Forall wf arrays → wf r.
Proof.
  intros E Hwf.
  destruct (concatenate_last_Ok _ _ E) as (a & rest & -> & Ha & Hall & Hs & Hd).
  unfold wf. rewrite Hs, Hd, size_of_snoc.
  apply length_concat_uniform. intros i Hi.
  apply (length_concat_rows_nd a); [done|done|lia].
Qed.
End feature_maps_more.

(** X1.  [IdentityFeatureMap] keeps the entries and returns an array of
    at least two dimensions: a scalar becomes [(1, 1)], a vector of
    length [k] becomes [(1, k)], an array that has two dimensions or more
    is returned as it is.  Applying the map twice is applying it once. *)
Theorem X1_IdentityFeatureMap_call {A} (X : ndarray A) :
  data (IdentityFeatureMap.__call__ X) = data X ∧
  2 ≤ length (shape (IdentityFeatureMap.__call__ X)) ∧
  (shape X = [] → shape (IdentityFeatureMap.__call__ X) = [1; 1]) ∧
  (∀ k, shape X = [k] → shape (IdentityFeatureMap.__call__ X) = [1; k]) ∧
  (2 ≤ length (shape X) → IdentityFeatureMap.__call__ X = X) ∧
  (wf X → wf (IdentityFeatureMap.__call__ X)) ∧
  IdentityFeatureMap.__call__ (IdentityFeatureMap.__call__ X)
    = IdentityFeatureMap.__call__ X.
Proof.
  unfold IdentityFeatureMap.__call__.
  split; [apply atleast_2d_data|]. split; [apply atleast_2d_ndim|].
  split; [|split; [|split; [|split]]].
  - intros Hs. unfold atleast_2d. by rewrite Hs.
  - intros k Hs. unfold atleast_2d. by rewrite Hs.
  - apply atleast_2d_id.
  - apply atleast_2d_wf.
  - apply atleast_2d_id, atleast_2d_ndim.
Qed.

Lemma X1_IdentityFeatureMap_call_witness :
  shape (IdentityFeatureMap.__call__ {| shape := [3]; data := [1; 2; 3]%Z |}) = [1; 3] ∧
  IdentityFeatureMap.__call__ FeatureSamples.X = FeatureSamples.X ∧
  wf (IdentityFeatureMap.__call__ {| shape := []; data := [5%Z] |}).
Proof.
  split; [|split].
  - exact (proj1 (proj2 (proj2 (proj2
             (X1_IdentityFeatureMap_call {| shape := [3]; data := [1; 2; 3]%Z |}))))
             3 eq_refl).
  - exact (proj1 (proj2 (proj2 (proj2 (proj2
             (X1_IdentityFeatureMap_call FeatureSamples.X))))) (le_n 2)).
  - exact (proj1 (proj2 (proj2 (proj2 (proj2 (proj2
             (X1_IdentityFeatureMap_call {| shape := []; data := [5%Z] |}))))))
             eq_refl).
Defined.

(** X2.  On feature maps that return arrays of one element type for
    [X] (an exception that a feature map raises is not covered here): the
    call returns exactly when there is a feature map and every output,
    made two-dimensional, has the leading dimensions of the first one.
    With no feature map, and with an output whose leading dimensions are
    not those of the first, the exception is NumPy's [ValueError]. *)
Theorem X2_ConcatenateFeatureMaps_call_raises {A}
    (feature_maps : list (FeatureMap A)) (X : ndarray A) :
  let r := ConcatenateFeatureMaps.__call__
             (ConcatenateFeatureMaps.__init__ feature_maps) X in
  (is_ok r = true ↔
   ∃ fm0, head feature_maps = Some fm0 ∧
     Forall (λ fm, leading (atleast_2d (fm X)) = leading (atleast_2d (fm0 X)))
       feature_maps) ∧
  (feature_maps = [] → r = Err ValueError) ∧
  (∀ fm0 fm, head feature_maps = Some fm0 → fm ∈ feature_maps →
     leading (atleast_2d (fm X)) ≠ leading (atleast_2d (fm0 X)) →
     r = Err ValueError).
Proof.
  unfold ConcatenateFeatureMaps.__call__, ConcatenateFeatureMaps.__init__. simpl.
  destruct feature_maps as [|fm0 rest]; simpl.
  { split; [split; [done | by intros (? & ? & _)]|]. split; [done|].
    by intros ? ? ?. }
  rewrite bool_decide_eq_false_2 by apply atleast_2d_shape_ne.
  destruct (forallb _ _) eqn:Hall; simpl.
  - apply same_leading_Forall, Forall_fmap in Hall.
    split; [split; [intros _|done]|split; [done|]].
    + exists fm0. split; [done|]. apply Forall_cons. split; [done|].
      eapply Forall_impl; [done|]. by intros fm [_ ?].
    + intros fm0' fm [= <-] Hin Hne. exfalso.
      apply elem_of_cons in Hin as [->|Hin]; [done|].
      rewrite Forall_forall in Hall. by destruct (Hall fm Hin) as [_ ?].
  - split; [split; [done|]|by split].
    intros (fm & [= <-] & Hfm).
    apply Forall_cons in Hfm as [_ Hfm].
    apply not_true_iff_false in Hall. exfalso. apply Hall.
    apply same_leading_Forall, Forall_fmap.
    eapply Forall_impl; [done|]. intros fm' ?. simpl.
    split; [apply atleast_2d_shape_ne | done].
Qed.

Lemma X2_ConcatenateFeatureMaps_call_raises_witness :
  ConcatenateFeatureMaps.__call__ (ConcatenateFeatureMaps.__init__ [])
    FeatureSamples.X = Err ValueError ∧
  is_ok (ConcatenateFeatureMaps.__call__
           (ConcatenateFeatureMaps.__init__ FeatureSamples.feature_maps)
           FeatureSamples.X) = true ∧
  ConcatenateFeatureMaps.__call__
    (ConcatenateFeatureMaps.__init__ [IdentityFeatureMap.__call__; λ _, FeatureSamples.X3])
    FeatureSamples.X = Err ValueError.
Proof.
  split; [|split].
  - exact (proj1 (proj2 (X2_ConcatenateFeatureMaps_call_raises [] FeatureSamples.X))
             eq_refl).
  - apply (proj1 (X2_ConcatenateFeatureMaps_call_raises
                    FeatureSamples.feature_maps FeatureSamples.X)).
    exists IdentityFeatureMap.__call__. split; [reflexivity|].
    repeat constructor.
  - apply (proj2 (proj2 (X2_ConcatenateFeatureMaps_call_raises
                           [IdentityFeatureMap.__call__; λ _, FeatureSamples.X3]
                           FeatureSamples.X))
             IdentityFeatureMap.__call__ (λ _, FeatureSamples.X3) eq_refl).
    + apply list_elem_of_further, list_elem_of_here.
    + intros Hl. discriminate Hl.
Defined.

(** X3.  With a single feature map the call returns that map's output,
    made two-dimensional: cutting the entries into rows and putting them
    back gives the array again. *)
Theorem X3_ConcatenateFeatureMaps_single {A} (fm : FeatureMap A) (X : ndarray A) :
  wf (fm X) →
  ConcatenateFeatureMaps.__call__ (ConcatenateFeatureMaps.__init__ [fm]) X
  = Ok (atleast_2d (fm X)).
Proof.
  intros Hwf%atleast_2d_wf.
  unfold ConcatenateFeatureMaps.__call__, ConcatenateFeatureMaps.__init__. simpl.
  pose proof (atleast_2d_shape_ne (fm X)) as Hne.
  rewrite bool_decide_eq_false_2 by done.
  destruct (atleast_2d (fm X)) as [sh d] eqn:Ha. f_equal.
  pose proof (shape_leading_last _ Hne) as Hsh.
  pose proof (wf_length _ Hne Hwf) as Hlen. simpl in *.
  rewrite Nat.add_0_r, <-Hsh. f_equal.
  etrans; [|apply (concat_runs d _ (last_dim {| shape := sh; data := d |}) Hlen)].
  f_equal. apply list_fmap_ext. intros _ i _. simpl. apply app_nil_r.
Qed.

Lemma X3_ConcatenateFeatureMaps_single_witness :
  ConcatenateFeatureMaps.__call__
    (ConcatenateFeatureMaps.__init__ [IdentityFeatureMap.__call__]) FeatureSamples.X
  = Ok FeatureSamples.X.
Proof.
  exact (X3_ConcatenateFeatureMaps_single IdentityFeatureMap.__call__
           FeatureSamples.X eq_refl).
Defined.

(** X4.  Whatever the number of dimensions of the outputs: when the
    call returns, the result has the leading dimensions of the first
    output followed by the sum of the last dimensions, at least two
    dimensions, and as many entries as its shape says. *)
Theorem X4_ConcatenateFeatureMaps_call_shape {A}
    (feature_maps : list (FeatureMap A)) (X R : ndarray A) :
  ConcatenateFeatureMaps.__call__ (ConcatenateFeatureMaps.__init__ feature_maps) X
    = Ok R →
  Forall (λ fm, wf (fm X)) feature_maps →
  wf R ∧ 2 ≤ length (shape R) ∧
  ∃ fm0, head feature_maps = Some fm0 ∧
    shape R = leading (atleast_2d (fm0 X))
              ++ [sum_list ((λ fm, last_dim (atleast_2d (fm X))) <$> feature_maps)].
Proof.
  unfold ConcatenateFeatureMaps.__call__, ConcatenateFeatureMaps.__init__. simpl.
  intros E Hwf. split.
  { apply (concatenate_last_wf _ _ E), Forall_fmap.
    eapply Forall_impl; [done|]. intros fm. apply atleast_2d_wf. }
  destruct (concatenate_last_Ok _ _ E) as (a & rest & Heq & Ha & _ & Hs & _).
  destruct feature_maps as [|fm0 fms]; [done|].
  rewrite fmap_cons in Heq. injection Heq as <- <-.
  split.
  - rewrite Hs, length_app. simpl.
    pose proof (atleast_2d_ndim (fm0 X)) as Hn.
    rewrite (shape_leading_last _ Ha), length_app in Hn. simpl in Hn. lia.
  - exists fm0. split; [done|]. rewrite Hs. do 2 f_equal.
    by rewrite <-list_fmap_compose.
Qed.

Lemma X4_ConcatenateFeatureMaps_call_shape_witness :
  ∃ R,
    ConcatenateFeatureMaps.__call__
      (ConcatenateFeatureMaps.__init__ FeatureSamples.feature_maps) FeatureSamples.X
    = Ok R ∧ wf R ∧ 2 ≤ length (shape R).
Proof.
  eexists. split; [reflexivity|].
  destruct (X4_ConcatenateFeatureMaps_call_shape FeatureSamples.feature_maps
              FeatureSamples.X _ eq_refl) as (Hwf & Hn & _).
  - repeat constructor.
  - split; [exact Hwf | exact Hn].
Defined.

(** ** The forward pass and the step executor, read backwards *)

Section steps_more.
Context {V Ext : Type}.
Local Abbreviation value := (value V).
Local Abbreviation obj := (obj V Ext).
Local Abbreviation dict := (gmap string value).

Lemma call_net_Ok (h h' : list obj) l (batch out : dict) :
  call_net l batch h = Ok (out, h') →
  ∃ c s s', h !! l = Some (NetObj c s) ∧ nc_call c s batch = Ok (out, s') ∧
            h' = <[l := NetObj c s']> h.
Proof.
  unfold call_net. destruct (h !! l) as [[d|c s|s]|] eqn:Hl; try done.
  destruct (nc_call c s batch) as [[o s']|e] eqn:Hc; [|done].
  intros [= <- <-]. by exists c, s, s'.
Qed.

Lemma call_net_not_net (h : list obj) l (batch : dict) :
  (∀ c s, h !! l ≠ Some (NetObj c s)) → call_net l batch h = Err TypeError.
Proof.
  intros Hl. unfold call_net.
  destruct (h !! l) as [[d|c s|s]|] eqn:E; try done. by destruct (Hl c s).
Qed.

Lemma getitem_Ok (h h' : list obj) (d : dict) k v :
  getitem d k h = Ok (v, h') → d !! k = Some v ∧ h' = h.
Proof. unfold getitem. destruct (d !! k); [|done]. by intros [= <- <-]. Qed.

Lemma getitem_missing (h : list obj) (d : dict) k :
  d !! k = None → getitem d k h = Err (KeyError k).
Proof. unfold getitem. by intros ->. Qed.

(** [base_step] returns only along the one path through its body. *)
Lemma DPNets_base_step_Ok (self : DPNetsModule.t V Ext) (batch r : dict) i
    (h h' : list obj) :
  DPNetsModule.base_step self batch i h = Ok (r, h') →
  ∃ xv yv c1 s1 (out_x : dict) s1' xe c2 s2 (out_y : dict) s2' ye loss,
    batch !! "x_value" = Some xv ∧ batch !! "y_value" = Some yv ∧
    h !! DPNetsModule.model self = Some (NetObj c1 s1) ∧
    nc_call c1 s1 {["x_value" := xv]} = Ok (out_x, s1') ∧
    out_x !! "x_encoded" = Some xe ∧
    <[DPNetsModule.model self := NetObj c1 s1']> h !! DPNetsModule.model_2 self
      = Some (NetObj c2 s2) ∧
    nc_call c2 s2 {["x_value" := yv]} = Ok (out_y, s2') ∧
    out_y !! "x_encoded" = Some ye ∧
    DPNetsModule.loss_fn self xe ye = Ok loss ∧
    r = {["loss" := loss]} ∧
    h' = <[DPNetsModule.model_2 self := NetObj c2 s2']>
           (<[DPNetsModule.model self := NetObj c1 s1']> h).
Proof.
  unfold DPNetsModule.base_step.
  unfold bind at 1. destruct (getitem batch "x_value" h) as [[xv h1]|] eqn:E1; [|done].
  apply getitem_Ok in E1 as [Hx ->].
  unfold bind at 1. destruct (getitem batch "y_value" h) as [[yv h1]|] eqn:E2; [|done].
  apply getitem_Ok in E2 as [Hy ->].
  unfold bind at 1.
  destruct (call_net _ _ h) as [[out_x h1]|] eqn:E3; [|done].
  apply call_net_Ok in E3 as (c1 & s1 & s1' & Hm & Hc1 & ->).
  unfold bind at 1.
  destruct (getitem out_x "x_encoded" _) as [[xe h1]|] eqn:E4; [|done].
  apply getitem_Ok in E4 as [Hxe ->].
  unfold bind at 1.
  destruct (call_net _ _ _) as [[out_y h1]|] eqn:E5; [|done].
  apply call_net_Ok in E5 as (c2 & s2 & s2' & Hm2 & Hc2 & ->).
  unfold bind at 1.
  destruct (getitem out_y "x_encoded" _) as [[ye h1]|] eqn:E6; [|done].
  apply getitem_Ok in E6 as [Hye ->].
  unfold bind, lift, ret.
  destruct (DPNetsModule.loss_fn self xe ye) as [loss|] eqn:Hloss; [|done].
  intros [= <- <-].
  by exists xv, yv, c1, s1, out_x, s1', xe, c2, s2, out_y, s2', ye, loss.
Qed.
End steps_more.

(** X5.  [forward] of either module is one call of [model] on the batch
    as it is: it returns what the network returns, changes the store at
    that network and nowhere else (a second encoder that is another
    object, the estimator, the decoder and the dictionaries stay as they
    are), and raises [TypeError] when [model] is no network. *)
Theorem X5_forward {V Ext} (h : list (obj V Ext)) (batch : gmap string (value V)) :
  (∀ (self : DPNetsModule.t V Ext) out h',
     DPNetsModule.forward self batch h = Ok (out, h') →
     ∃ c s s',
       h !! DPNetsModule.model self = Some (NetObj c s) ∧
       nc_call c s batch = Ok (out, s') ∧
       h' !! DPNetsModule.model self = Some (NetObj c s') ∧
       length h' = length h ∧
       ∀ l, l ≠ DPNetsModule.model self → h' !! l = h !! l) ∧
  (∀ (self : KoopmanDNNModule.t V Ext) out h',
     KoopmanDNNModule.forward self batch h = Ok (out, h') →
     ∃ c s s',
       h !! KoopmanDNNModule.model self = Some (NetObj c s) ∧
       nc_call c s batch = Ok (out, s') ∧
       h' !! KoopmanDNNModule.model self = Some (NetObj c s') ∧
       length h' = length h ∧
       ∀ l, l ≠ KoopmanDNNModule.model self → h' !! l = h !! l) ∧
  (∀ (self : DPNetsModule.t V Ext),
     (∀ c s, h !! DPNetsModule.model self ≠ Some (NetObj c s)) →
     DPNetsModule.forward self batch h = Err TypeError) ∧
  (∀ (self : KoopmanDNNModule.t V Ext),
     (∀ c s, h !! KoopmanDNNModule.model self ≠ Some (NetObj c s)) →
     KoopmanDNNModule.forward self batch h = Err TypeError).
Proof.
  split; [|split; [|split]].
  - intros self out h' E. apply call_net_Ok in E as (c & s & s' & Hm & Hc & ->).
    exists c, s, s'. split; [done|]. split; [done|].
    split; [apply list_lookup_insert_eq; by eapply lookup_lt_Some|].
    split; [apply length_insert|]. intros l Hl. by apply list_lookup_insert_ne.
  - intros self out h' E. apply call_net_Ok in E as (c & s & s' & Hm & Hc & ->).
    exists c, s, s'. split; [done|]. split; [done|].
    split; [apply list_lookup_insert_eq; by eapply lookup_lt_Some|].
    split; [apply length_insert|]. intros l Hl. by apply list_lookup_insert_ne.
  - intros self Hm. by apply call_net_not_net.
  - intros self Hm. by apply call_net_not_net.
Qed.

Lemma X5_forward_witness :
  (∃ c s s',
     Samples.store' !! DPNetsModule.model (Samples.dp_shared None)
       = Some (NetObj c s) ∧
     nc_call c s Samples.batch = Ok ({["x_encoded" := VPrim 3%Z]}, s')) ∧
  KoopmanDNNModule.forward (Samples.koopman None) Samples.batch Samples.store
  = Err TypeError.
Proof.
  destruct (X5_forward Samples.store' Samples.batch) as (H1 & _ & _ & _).
  destruct (X5_forward Samples.store Samples.batch) as (_ & _ & _ & H4).
  split.
  - destruct (H1 (Samples.dp_shared None) {["x_encoded" := VPrim 3%Z]}
                (Samples.store ++ [NetObj Samples.encoder 1%Z]) eq_refl)
      as (c & s & s' & Hm & Hc & _).
    exists c, s, s'. split; [exact Hm | exact Hc].
  - apply (H4 (Samples.koopman None)). intros c s. discriminate.
Defined.

(** X6.  [base_step] reads [x_value], then [y_value], then calls the
    networks: a batch without [x_value] raises [KeyError 'x_value'], one
    with [x_value] and without [y_value] raises [KeyError 'y_value'], and
    a first network whose output has no [x_encoded] raises
    [KeyError 'x_encoded'].  The same holds for the two steps built on
    it. *)
Theorem X6_DPNets_base_step_missing_key {V Ext} (self : DPNetsModule.t V Ext)
    (batch : gmap string (value V)) (batch_idx : Z) (h : list (obj V Ext)) :
  (batch !! "x_value" = None →
   DPNetsModule.base_step self batch batch_idx h = Err (KeyError "x_value") ∧
   DPNetsModule.training_step self batch batch_idx h = Err (KeyError "x_value") ∧
   DPNetsModule.validation_step self batch batch_idx h = Err (KeyError "x_value")) ∧
  (is_Some (batch !! "x_value") → batch !! "y_value" = None →
   DPNetsModule.base_step self batch batch_idx h = Err (KeyError "y_value") ∧
   DPNetsModule.training_step self batch batch_idx h = Err (KeyError "y_value") ∧
   DPNetsModule.validation_step self batch batch_idx h = Err (KeyError "y_value")) ∧
  (∀ xv yv c s (out_x : gmap string (value V)) s',
     batch !! "x_value" = Some xv → batch !! "y_value" = Some yv →
     h !! DPNetsModule.model self = Some (NetObj c s) →
     nc_call c s {["x_value" := xv]} = Ok (out_x, s') →
     out_x !! "x_encoded" = None →
     DPNetsModule.base_step self batch batch_idx h = Err (KeyError "x_encoded")).
Proof.
  split; [|split].
  - intros Hx.
    assert (DPNetsModule.base_step self batch batch_idx h = Err (KeyError "x_value"))
      as E.
    { unfold DPNetsModule.base_step, bind. by rewrite (getitem_missing _ _ _ Hx). }
    by rewrite DPNets_training_step_eq, DPNets_validation_step_eq, E.
  - intros [xv Hx] Hy.
    assert (DPNetsModule.base_step self batch batch_idx h = Err (KeyError "y_value"))
      as E.
    { unfold DPNetsModule.base_step. unfold bind at 1.
      rewrite (getitem_run _ _ _ _ Hx). unfold bind at 1.
      by rewrite (getitem_missing _ _ _ Hy). }
    by rewrite DPNets_training_step_eq, DPNets_validation_step_eq, E.
  - intros xv yv c s out_x s' Hx Hy Hm Hc Hxe.
    unfold DPNetsModule.base_step.
    unfold bind at 1. rewrite (getitem_run _ _ _ _ Hx).
    unfold bind at 1. rewrite (getitem_run _ _ _ _ Hy).
    unfold bind at 1. rewrite (call_net_run _ _ _ _ _ _ _ Hm Hc).
    unfold bind at 1. by rewrite (getitem_missing _ _ _ Hxe).
Qed.

Lemma X6_DPNets_base_step_missing_key_witness :
  DPNetsModule.base_step (Samples.dp_shared None) ∅ 0 Samples.store'
    = Err (KeyError "x_value") ∧
  DPNetsModule.training_step (Samples.dp_shared None)
    {["x_value" := VPrim 3%Z]} 0 Samples.store' = Err (KeyError "y_value").
Proof.
  split.
  - exact (proj1 (proj1 (X6_DPNets_base_step_missing_key (Samples.dp_shared None)
                           ∅ 0 Samples.store') eq_refl)).
  - destruct (X6_DPNets_base_step_missing_key (Samples.dp_shared None)
                {["x_value" := VPrim 3%Z]} 0 Samples.store') as (_ & H2 & _).
    destruct H2 as (_ & Ht & _);
      [exists (VPrim 3%Z); reflexivity | reflexivity | exact Ht].
Defined.

(** X7.  [base_step] looks at [x_value] and [y_value] of the batch and at
    nothing else: any other key (the masks, say) and the batch index have
    no influence on what it returns or does to the store. *)
Theorem X7_DPNets_base_step_reads_two_keys {V Ext} (self : DPNetsModule.t V Ext)
    (batch batch' : gmap string (value V)) (batch_idx batch_idx' : Z)
    (h : list (obj V Ext)) :
  batch !! "x_value" = batch' !! "x_value" →
  batch !! "y_value" = batch' !! "y_value" →
  DPNetsModule.base_step self batch batch_idx h
  = DPNetsModule.base_step self batch' batch_idx' h.
Proof.
  intros Hx Hy. unfold DPNetsModule.base_step, bind, getitem.
  by rewrite Hx, Hy.
Qed.

Lemma X7_DPNets_base_step_reads_two_keys_witness :
  DPNetsModule.base_step (Samples.dp_shared None)
    (<["mask_out_of_series_left" := VNone]> Samples.batch) 7 Samples.store'
  = DPNetsModule.base_step (Samples.dp_shared None) Samples.batch 0 Samples.store'.
Proof.
  apply (X7_DPNets_base_step_reads_two_keys (Samples.dp_shared None)
           (<["mask_out_of_series_left" := VNone]> Samples.batch) Samples.batch
           7 0 Samples.store'); vm_compute; reflexivity.
Defined.

(** X8.  A [base_step] that returns has returned a dictionary with the
    one key ['loss'], has built no object, and has changed the store at
    the two encoders only: the caller's dictionaries and every other
    object are as before. *)
Theorem X8_DPNets_base_step_frame {V Ext} (self : DPNetsModule.t V Ext)
    (batch r : gmap string (value V)) (batch_idx : Z) (h h' : list (obj V Ext)) :
  DPNetsModule.base_step self batch batch_idx h = Ok (r, h') →
  (∃ loss, r = {["loss" := loss]}) ∧
  length h' = length h ∧
  ∀ l, l ≠ DPNetsModule.model self → l ≠ DPNetsModule.model_2 self →
       h' !! l = h !! l.
Proof.
  intros E.
  destruct (DPNets_base_step_Ok _ _ _ _ _ _ E)
    as (xv&yv&c1&s1&out_x&s1'&xe&c2&s2&out_y&s2'&ye&loss&_&_&_&_&_&_&_&_&_&->&->).
  split; [by exists loss|]. split; [by rewrite !length_insert|].
  intros l H1 H2. by rewrite !list_lookup_insert_ne.
Qed.

Lemma X8_DPNets_base_step_frame_witness :
  ∃ r h',
    DPNetsModule.base_step (Samples.dp_shared None) Samples.batch 0 Samples.store'
      = Ok (r, h') ∧
    length h' = 8 ∧ h' !! 1 = Samples.store' !! 1.
Proof.
  assert (E : DPNetsModule.base_step (Samples.dp_shared None) Samples.batch 0
                Samples.store'
              = Ok ({["loss" := VPrim 0%Z]},
                    Samples.store ++ [NetObj Samples.encoder 2%Z]))
    by (vm_compute; reflexivity).
  exists {["loss" := VPrim 0%Z]}, (Samples.store ++ [NetObj Samples.encoder 2%Z]).
  split; [exact E|].
  destruct (X8_DPNets_base_step_frame (Samples.dp_shared None) Samples.batch _ 0
              Samples.store' _ E) as (_ & Hlen & Hframe).
  split; [exact Hlen|]. apply Hframe; discriminate.
Defined.

(** X9.  With a shared encoder ([model_2] is [model]) a step calls the
    one network twice, the second time in the state the first call left
    it in, and the store ends with the state after the second call. *)
Theorem X9_DPNets_base_step_shared_twice {V Ext} (self : DPNetsModule.t V Ext)
    (batch r : gmap string (value V)) (batch_idx : Z) (h h' : list (obj V Ext)) :
  DPNetsModule.model_2 self = DPNetsModule.model self →
  DPNetsModule.base_step self batch batch_idx h = Ok (r, h') →
  ∃ xv yv c s (out_x out_y : gmap string (value V)) s' s'',
    batch !! "x_value" = Some xv ∧ batch !! "y_value" = Some yv ∧
    h !! DPNetsModule.model self = Some (NetObj c s) ∧
    nc_call c s {["x_value" := xv]} = Ok (out_x, s') ∧
    nc_call c s' {["x_value" := yv]} = Ok (out_y, s'') ∧
    h' = <[DPNetsModule.model self := NetObj c s'']> h.
Proof.
  intros Hsame E.
  destruct (DPNets_base_step_Ok _ _ _ _ _ _ E)
    as (xv&yv&c1&s1&out_x&s1'&xe&c2&s2&out_y&s2'&ye&loss
        &Hx&Hy&Hm&Hc1&_&Hm2&Hc2&_&_&_&->).
  rewrite Hsame in Hm2 |- *.
  rewrite list_lookup_insert_eq in Hm2 by (by eapply lookup_lt_Some).
  injection Hm2 as <- <-.
  exists xv, yv, c1, s1, out_x, out_y, s1', s2'.
  do 5 (split; [done|]). by rewrite list_insert_insert_eq.
Qed.

Lemma X9_DPNets_base_step_shared_twice_witness :
  ∃ s s'' : Z,
    Samples.store' !! 7 = Some (NetObj Samples.encoder s) ∧
    Samples.store ++ [NetObj Samples.encoder 2%Z]
    = <[7 := NetObj Samples.encoder s'']> Samples.store'.
Proof.
  assert (E : DPNetsModule.base_step (Samples.dp_shared None) Samples.batch 0
                Samples.store'
              = Ok ({["loss" := VPrim 0%Z]},
                    Samples.store ++ [NetObj Samples.encoder 2%Z]))
    by (vm_compute; reflexivity).
  destruct (X9_DPNets_base_step_shared_twice (Samples.dp_shared None) Samples.batch
              {["loss" := VPrim 0%Z]} 0 Samples.store'
              (Samples.store ++ [NetObj Samples.encoder 2%Z]) eq_refl E)
    as (xv & yv & c & s & out_x & out_y & s' & s'' & _ & _ & Hm & _ & _ & Hh').
  injection Hm as <- <-.
  exists 0%Z, s''. split; [reflexivity | exact Hh'].
Defined.

(** ** The constructors, read backwards *)

Section init_more.
Context {V Ext : Type}.
Local Abbreviation value := (value V).
Local Abbreviation obj := (obj V Ext).
Local Abbreviation dict := (gmap string value).

Lemma prefixed_other (prefix : string) (d : dict) key :
  (∀ k, key ≠ prefix +:+ k) → prefixed prefix d !! key = None.
Proof.
  intros Hkey. unfold prefixed. apply (lookup_kmap_None _).
  intros k Hk. by destruct (Hkey k).
Qed.

Lemma sched_not_optim k k' : "sched_" +:+ k ≠ "optim_" +:+ k'.
Proof. done. Qed.
Lemma sched_not_model_2 k k' : "sched_" +:+ k ≠ "model_2_" +:+ k'.
Proof. done. Qed.
Lemma optim_not_model_2 k k' : "optim_" +:+ k ≠ "model_2_" +:+ k'.
Proof. done. Qed.

Lemma lookup_union_match (m1 m2 : dict) key :
  (m1 ∪ m2) !! key = match m1 !! key with Some v => Some v | None => m2 !! key end.
Proof.
  rewrite lookup_union. by destruct (m1 !! key), (m2 !! key).
Qed.

(** What a returning two-encoder construction has built. *)
Lemma DPNets_init_Ok (h h' : list obj) mc ofn lfn sfn mc2
    (lmh loh lsh lsc lmh2 : loc) (mh oh sh sc mh2 : dict) m :
  h !! lmh = Some (DictObj mh) → h !! loh = Some (DictObj oh) →
  h !! lsh = Some (DictObj sh) → h !! lsc = Some (DictObj sc) →
  h !! lmh2 = Some (DictObj mh2) →
  DPNetsModule.__init__ mc lmh ofn loh lfn sfn (Some lsh) (Some lsc) mc2 (Some lmh2) h
    = Ok (m, h') →
  DPNetsModule.hparams m
    = DPNets_hparams mc lmh ofn loh lfn sfn lsh lsc mc2 lmh2 mh mh2 oh sh sc ∧
  DPNetsModule.model m = length h ∧
  DPNetsModule.optimizer_hyperparameters m = loh ∧
  DPNetsModule.scheduler_hyperparameters m = lsh ∧
  DPNetsModule.scheduler_config m = lsc ∧
  DPNetsModule.optimizer_fn m = ofn ∧
  DPNetsModule.scheduler_fn m = sfn ∧
  ∃ s, nc_init mc mh = Ok s ∧
    match mc2 with
    | None => DPNetsModule.model_2 m = length h ∧ h' = h ++ [NetObj mc s]
    | Some c2 => ∃ s2, nc_init c2 mh2 = Ok s2 ∧
        DPNetsModule.model_2 m = S (length h) ∧
        h' = h ++ [NetObj mc s; NetObj c2 s2]
    end.
Proof.
  intros Hmh Hoh Hsh Hsc Hmh2.
  rewrite (DPNets_init_run h mc ofn lfn sfn mc2 _ _ _ _ _ _ _ _ _ _
             Hmh Hoh Hsh Hsc Hmh2).
  destruct (nc_init mc mh) as [s|]; [|done].
  destruct mc2 as [c2|].
  - destruct (nc_init c2 mh2) as [s2|] eqn:Hs2; [|done]. intros [= <- <-].
    do 7 (split; [done|]). exists s. split; [done|]. exists s2.
    by rewrite <-(assoc_L (++)).
  - intros [= <- <-]. do 7 (split; [done|]). by exists s.
Qed.
End init_more.

Lemma arg_names_NoDup : NoDup DPNets_arg_names ∧ NoDup Koopman_arg_names.
Proof. split; apply (bool_decide_unpack _); by vm_compute. Qed.

(** X10.  Which entry of [hparams] of a constructed [DPNetsModule] a key
    holds, collisions included.  Under the name of a constructor argument:
    that argument, over any entry the loops wrote there.  Under [sched_]
    and [k]: the scheduler-config entry, else the scheduler-hyperparameter
    entry; under [optim_] and [model_2_]: the entry of the optimizer and
    of the second model (kept also when [model_class_2] is left out); a
    model entry shows only where none of these took its key. *)
Theorem X10_DPNets_hparams_precedence {V Ext} (h h' : list (obj V Ext))
    mc ofn lfn sfn mc2 (lmh loh lsh lsc lmh2 : loc)
    (mh oh sh sc mh2 : gmap string (value V)) m :
  h !! lmh = Some (DictObj mh) → h !! loh = Some (DictObj oh) →
  h !! lsh = Some (DictObj sh) → h !! lsc = Some (DictObj sc) →
  h !! lmh2 = Some (DictObj mh2) →
  DPNetsModule.__init__ mc lmh ofn loh lfn sfn (Some lsh) (Some lsc) mc2 (Some lmh2) h
    = Ok (m, h') →
  (∀ key a,
     (key, a) ∈ DPNetsModule.init_args mc lmh ofn loh lfn sfn lsh lsc mc2 lmh2 →
     DPNetsModule.hparams m !! key = Some a) ∧
  (∀ k, DPNetsModule.hparams m !! ("sched_" +:+ k)
        = HValue <$> match sc !! k with
                     | Some v => Some v
                     | None => match sh !! k with
                               | Some v => Some v
                               | None => mh !! ("sched_" +:+ k)
                               end
                     end) ∧
  (∀ k, DPNetsModule.hparams m !! ("optim_" +:+ k)
        = HValue <$> match oh !! k with
                     | Some v => Some v
                     | None => mh !! ("optim_" +:+ k)
                     end) ∧
  (∀ k, DPNetsModule.hparams m !! ("model_2_" +:+ k)
        = HValue <$> match mh2 !! k with
                     | Some v => Some v
                     | None => mh !! ("model_2_" +:+ k)
                     end) ∧
  (∀ key, key ∉ DPNets_arg_names →
          (∀ k, key ≠ "sched_" +:+ k) → (∀ k, key ≠ "optim_" +:+ k) →
          (∀ k, key ≠ "model_2_" +:+ k) →
          DPNetsModule.hparams m !! key = HValue <$> mh !! key).
Proof.
  intros Hmh Hoh Hsh Hsc Hmh2 E.
  destruct (DPNets_init_Ok _ _ _ _ _ _ _ _ _ _ _ _ _ _ _ _ _ _
              Hmh Hoh Hsh Hsc Hmh2 E) as (-> & _).
  split; [|split; [|split; [|split]]].
  - intros key a Hin. unfold DPNets_hparams, DPNetsModule.save_hyperparameters.
    apply update_lookup_in; [|done].
    rewrite DPNets_init_args_names. apply arg_names_NoDup.
  - intros k. rewrite DPNets_hparams_other by apply sched_not_arg. f_equal.
    unfold DPNets_flat. rewrite (right_id_L ∅ (∪)).
    rewrite !lookup_union_match, !lookup_prefixed_key.
    rewrite (prefixed_other "optim_") by (intros k'; apply sched_not_optim).
    by rewrite (prefixed_other "model_2_") by (intros k'; apply sched_not_model_2).
  - intros k. rewrite DPNets_hparams_other by apply optim_not_arg. f_equal.
    unfold DPNets_flat. rewrite (right_id_L ∅ (∪)).
    rewrite !lookup_union_match, !lookup_prefixed_key.
    rewrite !(prefixed_other "sched_")
      by (intros k' Hk; by apply (sched_not_optim k' k)).
    by rewrite (prefixed_other "model_2_") by (intros k'; apply optim_not_model_2).
  - intros k. rewrite DPNets_hparams_other by apply model_2_not_arg. f_equal.
    unfold DPNets_flat. rewrite (right_id_L ∅ (∪)).
    rewrite !lookup_union_match, !lookup_prefixed_key.
    rewrite !(prefixed_other "sched_")
      by (intros k' Hk; by apply (sched_not_model_2 k' k)).
    by rewrite (prefixed_other "optim_")
      by (intros k' Hk; by apply (optim_not_model_2 k' k)).
  - intros key Hkey H1 H2 H3. rewrite DPNets_hparams_other by done. f_equal.
    unfold DPNets_flat. rewrite (right_id_L ∅ (∪)), !lookup_union_match.
    by rewrite !(prefixed_other "sched_"), (prefixed_other "optim_"),
         (prefixed_other "model_2_").
Qed.

(** A model mapping with a key called like an argument. *)
Lemma X10_DPNets_hparams_precedence_witness :
  ∃ m h',
    DPNetsModule.__init__ Samples.encoder 0 Samples.sgd 1 Samples.squared_error
      None (Some 2) (Some 3) None (Some 1) MoreSamples.store = Ok (m, h') ∧
    DPNetsModule.hparams m !! "scheduler_fn" = Some (HValue VNone) ∧
    DPNetsModule.hparams m !! "optimizer_hyperparameters" = Some (HValue (VRef 1)) ∧
    DPNetsModule.hparams m !! "sched_interval" = Some (HValue (VPrim 5%Z)) ∧
    DPNetsModule.hparams m !! "sched_gamma" = Some (HValue (VPrim 2%Z)) ∧
    DPNetsModule.hparams m !! "model_2_lr" = Some (HValue (VPrim 1%Z)) ∧
    DPNetsModule.hparams m !! "width" = Some (HValue (VPrim 8%Z)).
Proof.
  destruct (DPNets_init_collision MoreSamples.store Samples.encoder Samples.sgd
              Samples.squared_error None None 0 1 2 3 1 _ _ _ _ _ 0%Z
              eq_refl eq_refl eq_refl eq_refl eq_refl eq_refl)
    as (m & h' & E & _).
  { intros c2 Hc2. discriminate Hc2. }
  exists m, h'. split; [exact E|].
  destruct (X10_DPNets_hparams_precedence MoreSamples.store h' Samples.encoder
              Samples.sgd Samples.squared_error None None 0 1 2 3 1 _ _ _ _ _ m
              eq_refl eq_refl eq_refl eq_refl eq_refl E) as (H0 & H1 & _ & H3 & H4).
  split; [apply H0; do 5 apply list_elem_of_further; apply list_elem_of_here|].
  split; [apply H0; do 3 apply list_elem_of_further; apply list_elem_of_here|].
  split; [exact (H1 "interval")|]. split; [exact (H1 "gamma")|].
  split; [exact (H3 "lr")|].
  apply (H4 "width");
    [apply (bool_decide_unpack _); vm_compute; exact I|..]; intros k; discriminate.
Defined.

Lemma DPNets_init_keeps {V Ext} (h h1 : list (obj V Ext)) mc ofn lfn sfn mc2
    (lmh loh lsh lsc lmh2 : loc) (mh oh sh sc mh2 : gmap string (value V)) m :
  h !! lmh = Some (DictObj mh) → h !! loh = Some (DictObj oh) →
  h !! lsh = Some (DictObj sh) → h !! lsc = Some (DictObj sc) →
  h !! lmh2 = Some (DictObj mh2) →
  DPNetsModule.__init__ mc lmh ofn loh lfn sfn (Some lsh) (Some lsc) mc2
    (Some lmh2) h = Ok (m, h1) →
  DPNetsModule.hparams m
    = DPNets_hparams mc lmh ofn loh lfn sfn lsh lsc mc2 lmh2 mh mh2 oh sh sc ∧
  DPNetsModule.optimizer_hyperparameters m = loh ∧
  DPNetsModule.optimizer_fn m = ofn ∧
  DPNetsModule.scheduler_fn m = sfn ∧
  (∀ l x, h !! l = Some x → h1 !! l = Some x).
Proof.
  intros Hmh Hoh Hsh Hsc Hmh2 E.
  destruct (DPNets_init_Ok _ _ _ _ _ _ _ _ _ _ _ _ _ _ _ _ _ _
              Hmh Hoh Hsh Hsc Hmh2 E)
    as (Hfl & _ & Hloh & _ & _ & Hofn & Hsfn & s & _ & Hh').
  do 4 (split; [done|]).
  destruct mc2 as [c2|]; [destruct Hh' as (s2 & _ & _ & ->)|destruct Hh' as [_ ->]];
    intros l x; apply lookup_app_l_Some.
Qed.

(** X11.  A construction that returns keeps the caller's own
    dictionaries, not copies: the three attributes are the references it
    was given.  It changes no object that existed and builds the network
    (two with [model_class_2]) and nothing else; [model] is the first new
    object. *)
Theorem X11_init_frame {V Ext} (h h' : list (obj V Ext)) :
  (∀ mc ofn lfn sfn mc2 (lmh loh : loc) (osh osc omh2 : option loc) m,
     DPNetsModule.__init__ mc lmh ofn loh lfn sfn osh osc mc2 omh2 h = Ok (m, h') →
     DPNetsModule.optimizer_hyperparameters m = loh ∧
     Some (DPNetsModule.scheduler_hyperparameters m) = osh ∧
     Some (DPNetsModule.scheduler_config m) = osc ∧
     DPNetsModule.model m = length h ∧
     (∀ l x, h !! l = Some x → h' !! l = Some x) ∧
     length h' = length h + match mc2 with Some _ => 2 | None => 1 end) ∧
  (∀ mc ofn lfn ke dec sfn (lmh loh : loc) (okh odh osh osc : option loc) m,
     KoopmanDNNModule.__init__ mc lmh ofn loh lfn ke okh dec odh sfn osh osc h
       = Ok (m, h') →
     KoopmanDNNModule.optimizer_hyperparameters m = loh ∧
     Some (KoopmanDNNModule.scheduler_hyperparameters m) = osh ∧
     Some (KoopmanDNNModule.scheduler_config m) = osc ∧
     KoopmanDNNModule.model m = length h ∧
     KoopmanDNNModule.koopman_estimator m = ke ∧
     KoopmanDNNModule.decoder m = dec ∧
     (∀ l x, h !! l = Some x → h' !! l = Some x) ∧
     length h' = length h + 1).
Proof.
  split.
  - intros mc ofn lfn sfn mc2 lmh loh osh osc omh2 m E.
    destruct (DPNets_init_args _ _ _ _ _ _ _ _ _ _ _ _ _ E)
      as (lsh&lsc&lmh2&mh&oh&sh&sc&mh2&->&->&->&Hmh&Hoh&Hsh&Hsc&Hmh2).
    destruct (DPNets_init_Ok _ _ _ _ _ _ _ _ _ _ _ _ _ _ _ _ _ _
                Hmh Hoh Hsh Hsc Hmh2 E)
      as (_ & Hm & -> & -> & -> & _ & _ & s & _ & Hh').
    do 4 (split; [done|]).
    destruct mc2 as [c2|]; [destruct Hh' as (s2 & _ & _ & ->)|destruct Hh' as [_ ->]];
      (split; [intros l x; apply lookup_app_l_Some | by rewrite length_app]).
  - intros mc ofn lfn ke dec sfn lmh loh okh odh osh osc m E.
    destruct (Koopman_init_args _ _ _ _ _ _ _ _ _ _ _ _ _ _ _ E)
      as (lkh&ldh&lsh&lsc&oh&kh&dh&sh&sc&->&->&->&->&Hmh&Hoh&Hkh&Hdh&Hsh&Hsc).
    rewrite (Koopman_init_run h mc ofn lfn ke dec sfn _ _ _ _ _ _ _ _ _ _ _
               Hmh Hoh Hkh Hdh Hsh Hsc) in E.
    destruct (nc_init mc ∅) as [s|]; [|done]. injection E as <- <-.
    do 6 (split; [done|]).
    split; [intros l x; apply lookup_app_l_Some | by rewrite length_app].
Qed.

Lemma X11_init_frame_witness :
  Some (DPNetsModule.scheduler_config (Samples.dp_shared None)) = Some 3 ∧
  length Samples.store' = length Samples.store + 1 ∧
  KoopmanDNNModule.model (Samples.koopman None) = length Samples.store.
Proof.
  destruct (X11_init_frame Samples.store Samples.store') as [H1 H2].
  destruct (H1 Samples.encoder Samples.sgd Samples.squared_error None None 0 1
              (Some 2) (Some 3) (Some 4) (Samples.dp_shared None))
    as (_ & _ & Hsc & _ & _ & Hlen).
  { rewrite (DPNets_init_run Samples.store Samples.encoder Samples.sgd
               Samples.squared_error None None 0 1 2 3 4 _ _ _ _ _
               eq_refl eq_refl eq_refl eq_refl eq_refl). reflexivity. }
  destruct (H2 Samples.encoder Samples.sgd Samples.squared_error VNone VNone None
              4 1 (Some 5) (Some 6) (Some 2) (Some 3) (Samples.koopman None))
    as (_ & _ & _ & Hm & _).
  { rewrite (Koopman_init_run Samples.store Samples.encoder Samples.sgd
               Samples.squared_error VNone VNone None 4 1 5 6 2 3 _ _ _ _ _
               eq_refl eq_refl eq_refl eq_refl eq_refl eq_refl). reflexivity. }
  split; [exact Hsc|]. split; [exact Hlen | exact Hm].
Defined.

(** X12.  The module keeps the caller's optimizer dictionary itself,
    not a copy.  When the caller sets [optimizer_hyperparameters[k] = v]
    on their dictionary after the module is built, [configure_optimizers]
    hands the changed mapping to [optimizer_fn], with a scheduler factory
    and without one, and [hparams['optimizer_hyperparameters']] is that
    same changed dictionary.  The entry [hparams['optim_' + k]] was
    written by the loop of the constructor and is not written again: it
    holds what was in the mapping then. *)
Theorem X12_DPNets_hyperparameters_alias {V Ext} p (h h1 : list (obj V Ext))
    mc ofn lfn sfn mc2 (lmh loh lsh lsc lmh2 : loc)
    (mh oh sh sc mh2 : gmap string (value V)) m k v o :
  h !! lmh = Some (DictObj mh) → h !! loh = Some (DictObj oh) →
  h !! lsh = Some (DictObj sh) → h !! lsc = Some (DictObj sc) →
  h !! lmh2 = Some (DictObj mh2) →
  DPNetsModule.__init__ mc lmh ofn loh lfn sfn (Some lsh) (Some lsc) mc2
    (Some lmh2) h = Ok (m, h1) →
  let h2 := <[loh := DictObj (<[k := v]> oh)]> h1 in
  let now (l : loc) (d : gmap string (value V)) :=
    if decide (l = loh) then <[k := v]> oh else d in
  ofn (p m h2) (<[k := v]> oh) = Ok o →
  dict_setitem loh k v h1 = Ok (tt, h2) ∧
  (sfn = None →
   DPNetsModule.configure_optimizers p m h2
   = Ok (Bare (length h2), h2 ++ [ExtObj o])) ∧
  (∀ f s, sfn = Some f → f (length h2) (now lsh sh) = Ok s →
     DPNetsModule.configure_optimizers p m h2
     = Ok (WithScheduler [length h2] [length h2 + 2],
           h2 ++ [ExtObj o; ExtObj s;
                  DictObj (<["scheduler" := VRef (length h2 + 1)]> (now lsc sc))])) ∧
  DPNetsModule.hparams m !! "optimizer_hyperparameters" = Some (HValue (VRef loh)) ∧
  h2 !! loh = Some (DictObj (<[k := v]> oh)) ∧
  DPNetsModule.hparams m !! ("optim_" +:+ k)
    = HValue <$> match oh !! k with
                 | Some v' => Some v'
                 | None => mh !! ("optim_" +:+ k)
                 end.
Proof.
  intros Hmh Hoh Hsh Hsc Hmh2 E h2 now Ho.
  destruct (DPNets_init_keeps h h1 mc ofn lfn sfn mc2 lmh loh lsh lsc lmh2
              mh oh sh sc mh2 m Hmh Hoh Hsh Hsc Hmh2 E)
    as (Hfl & Hloh & Hofn & Hsfn & Hframe).
  destruct (DPNets_init_Ok _ _ _ _ _ _ _ _ _ _ _ _ _ _ _ _ _ _
              Hmh Hoh Hsh Hsc Hmh2 E) as (_ & _ & _ & Hlsh & Hlsc & _).
  pose proof (Hframe _ _ Hoh) as Hoh1.
  assert (Hoh2 : h2 !! loh = Some (DictObj (<[k := v]> oh))).
  { unfold h2. apply list_lookup_insert_eq. by eapply lookup_lt_Some. }
  assert (Hnow : ∀ l d, h !! l = Some (DictObj d) → h2 !! l = Some (DictObj (now l d))).
  { intros l d Hl. unfold now. destruct (decide (l = loh)) as [->|Hne]; [done|].
    unfold h2. rewrite list_lookup_insert_ne by done. by apply Hframe. }
  split; [by unfold dict_setitem; rewrite Hoh1|].
  split; [|split; [|split; [|split; [done|]]]].
  - intros Hnone.
    apply (DPNets_configure_bare p m h2 (<[k := v]> oh));
      [by rewrite Hloh|by rewrite Hsfn|by rewrite Hofn].
  - intros f s Hf Hs.
    apply (DPNets_configure_scheduler p m h2 (<[k := v]> oh) (now lsh sh)
             (now lsc sc) o f s);
      [by rewrite Hloh|rewrite Hlsh; by apply Hnow|rewrite Hlsc; by apply Hnow
      |by rewrite Hsfn|by rewrite Hofn|done].
  - rewrite Hfl. unfold DPNets_hparams, DPNetsModule.save_hyperparameters.
    apply update_lookup_in.
    + rewrite DPNets_init_args_names. apply arg_names_NoDup.
    + do 3 apply list_elem_of_further. apply list_elem_of_here.
  - rewrite Hfl, DPNets_hparams_other by apply optim_not_arg. f_equal.
    unfold DPNets_flat.
    rewrite (right_id_L ∅ (∪)), !lookup_union_match, !lookup_prefixed_key.
    rewrite !(prefixed_other "sched_")
      by (intros k' Hk; by apply (sched_not_optim k' k)).
    by rewrite (prefixed_other "model_2_") by (intros k'; apply optim_not_model_2).
Qed.

Lemma X12_DPNets_hyperparameters_alias_witness :
  DPNetsModule.configure_optimizers Samples.dp_parameters
    (Samples.dp_shared (Some Samples.step_lr))
    (<[1 := DictObj (<["lr" := VPrim 9%Z]> {["lr" := VPrim 1%Z]})]> Samples.store')
  = Ok (WithScheduler [8] [10],
        <[1 := DictObj (<["lr" := VPrim 9%Z]> {["lr" := VPrim 1%Z]})]> Samples.store'
          ++ [ExtObj 10%Z; ExtObj 20%Z;
              DictObj (<["scheduler" := VRef 9]> {["interval" := VPrim 5%Z]})]) ∧
  DPNetsModule.hparams (Samples.dp_shared (Some Samples.step_lr))
    !! "optimizer_hyperparameters" = Some (HValue (VRef 1)) ∧
  (<[1 := DictObj (<["lr" := VPrim 9%Z]> {["lr" := VPrim 1%Z]})]> Samples.store')
    !! 1 = Some (DictObj (<["lr" := VPrim 9%Z]> {["lr" := VPrim 1%Z]})) ∧
  DPNetsModule.hparams (Samples.dp_shared (Some Samples.step_lr)) !! "optim_lr"
    = Some (HValue (VPrim 1%Z)).
Proof.
  destruct (X12_DPNets_hyperparameters_alias Samples.dp_parameters Samples.store
              Samples.store' Samples.encoder Samples.sgd Samples.squared_error
              (Some Samples.step_lr) None 0 1 2 3 4 _ _ _ _ _
              (Samples.dp_shared (Some Samples.step_lr)) "lr" (VPrim 9%Z) 10%Z
              eq_refl eq_refl eq_refl eq_refl eq_refl
              (sample_dp_shared_constructed (Some Samples.step_lr)) eq_refl)
    as (_ & _ & Hc & Ha & Hl & Hh).
  split; [exact (Hc Samples.step_lr 20%Z eq_refl eq_refl)|].
  split; [exact Ha|]. split; [exact Hl | exact Hh].
Defined.

(** X13.  When the single-encoder construction returns, the model
    mapping was empty and the network was built from no keyword
    arguments; the four optional mappings were given.  The flat
    configuration then holds every argument of the constructor under its
    name, and besides the twelve names only keys under [optim_], [koop_],
    [dec_] and [sched_]. *)
Theorem X13_Koopman_init_returns {V Ext} (h h' : list (obj V Ext))
    mc ofn lfn ke dec sfn (lmh loh : loc) (okh odh osh osc : option loc) m :
  KoopmanDNNModule.__init__ mc lmh ofn loh lfn ke okh dec odh sfn osh osc h
    = Ok (m, h') →
  h !! lmh = Some (DictObj ∅) ∧
  (∃ s, nc_init mc ∅ = Ok s ∧ h' = h ++ [NetObj mc s]) ∧
  (∃ lkh ldh lsh lsc,
     okh = Some lkh ∧ odh = Some ldh ∧ osh = Some lsh ∧ osc = Some lsc ∧
     ∀ key a,
       (key, a) ∈ KoopmanDNNModule.init_args mc lmh ofn loh lfn ke lkh dec ldh
                    sfn lsh lsc →
       KoopmanDNNModule.hparams m !! key = Some a) ∧
  ∀ key v, KoopmanDNNModule.hparams m !! key = Some v →
    key ∈ Koopman_arg_names ∨
    ∃ k, key = "optim_" +:+ k ∨ key = "koop_" +:+ k ∨
         key = "dec_" +:+ k ∨ key = "sched_" +:+ k.
Proof.
  intros E.
  destruct (Koopman_init_args _ _ _ _ _ _ _ _ _ _ _ _ _ _ _ E)
    as (lkh&ldh&lsh&lsc&oh&kh&dh&sh&sc&->&->&->&->&Hmh&Hoh&Hkh&Hdh&Hsh&Hsc).
  rewrite (Koopman_init_run h mc ofn lfn ke dec sfn _ _ _ _ _ _ _ _ _ _ _
             Hmh Hoh Hkh Hdh Hsh Hsc) in E.
  destruct (nc_init mc ∅) as [s|]; [|done]. injection E as <- <-.
  split; [done|]. split; [by exists s|]. simpl. split.
  - exists lkh, ldh, lsh, lsc. do 4 (split; [done|]). intros key a Hin.
    unfold Koopman_hparams, KoopmanDNNModule.save_hyperparameters.
    apply update_lookup_in; [|done].
    rewrite Koopman_init_args_names. apply arg_names_NoDup.
  - intros key v.
    destruct (decide (key ∈ Koopman_arg_names)) as [Hin|Hout]; [by left|].
    rewrite Koopman_hparams_other by done. intros Hkey. right.
    apply fmap_Some in Hkey as (v' & Hkey & _). revert Hkey.
    unfold Koopman_flat. rewrite (right_id_L ∅ (∪)).
    rewrite !lookup_union_Some_raw, !lookup_prefixed.
    intros [(k&->&_)|[_ [(k&->&_)|[_ [(k&->&_)|[_ [(k&->&_)|[_ (k&->&_)]]]]]]]];
      exists k; tauto.
Qed.

Lemma X13_Koopman_init_returns_witness :
  Samples.store !! 4 = Some (DictObj ∅) ∧
  (∃ s, nc_init Samples.encoder ∅ = Ok s ∧
        Samples.store' = Samples.store ++ [NetObj Samples.encoder s]) ∧
  KoopmanDNNModule.hparams (Samples.koopman None) !! "model_hyperparameters"
    = Some (HValue (VRef 4)) ∧
  KoopmanDNNModule.hparams (Samples.koopman None) !! "scheduler_fn"
    = Some (HValue VNone).
Proof.
  destruct (X13_Koopman_init_returns Samples.store Samples.store' Samples.encoder
              Samples.sgd Samples.squared_error VNone VNone None 4 1
              (Some 5) (Some 6) (Some 2) (Some 3) (Samples.koopman None)
              (sample_koopman_constructed None))
    as (Hmh & Hs & (lkh & ldh & lsh & lsc & Hk & Hd & Hsh & Hsc & Hargs) & _).
  split; [exact Hmh|]. split; [exact Hs|].
  injection Hk as <-. injection Hd as <-. injection Hsh as <-. injection Hsc as <-.
  split; apply Hargs.
  - apply list_elem_of_further, list_elem_of_here.
  - do 9 apply list_elem_of_further. apply list_elem_of_here.
Defined.

(** X14.  Whatever operations are run on a constructed [DPNetsModule],
    in whatever order: the module's attributes stay the same, the
    dictionaries the caller passed are in the store unchanged, and
    [model] is still a network of [model_class]. *)
Theorem X14_DPNets_operations_keep {V Ext} p (h h1 h2 : list (obj V Ext))
    mc ofn lfn sfn mc2 (lmh loh lsh lsc lmh2 : loc)
    (mh oh sh sc mh2 : gmap string (value V)) m m' :
  h !! lmh = Some (DictObj mh) → h !! loh = Some (DictObj oh) →
  h !! lsh = Some (DictObj sh) → h !! lsc = Some (DictObj sc) →
  h !! lmh2 = Some (DictObj mh2) →
  DPNetsModule.__init__ mc lmh ofn loh lfn sfn (Some lsh) (Some lsc) mc2
    (Some lmh2) h = Ok (m, h1) →
  rtc (DPNets_step p) (m, h1) (m', h2) →
  m' = m ∧
  h2 !! DPNetsModule.optimizer_hyperparameters m = Some (DictObj oh) ∧
  h2 !! DPNetsModule.scheduler_hyperparameters m = Some (DictObj sh) ∧
  h2 !! DPNetsModule.scheduler_config m = Some (DictObj sc) ∧
  h2 !! lmh = Some (DictObj mh) ∧ h2 !! lmh2 = Some (DictObj mh2) ∧
  ∃ s, h2 !! DPNetsModule.model m = Some (NetObj mc s).
Proof.
  intros Hmh Hoh Hsh Hsc Hmh2 E Hsteps.
  destruct (DPNets_init_Ok _ _ _ _ _ _ _ _ _ _ _ _ _ _ _ _ _ _
              Hmh Hoh Hsh Hsc Hmh2 E)
    as (_ & Hm & -> & -> & -> & _ & _ & s & _ & Hh').
  destruct (DPNets_init_keeps _ _ _ _ _ _ _ _ _ _ _ _ _ _ _ _ _ _
              Hmh Hoh Hsh Hsc Hmh2 E) as (_ & _ & _ & _ & Hframe).
  apply DPNets_steps_frame in Hsteps as [Heq Hev]. simpl in Heq, Hev.
  split; [done|].
  split; [exact (Hev _ _ (Hframe _ _ Hoh))|].
  split; [exact (Hev _ _ (Hframe _ _ Hsh))|].
  split; [exact (Hev _ _ (Hframe _ _ Hsc))|].
  split; [exact (Hev _ _ (Hframe _ _ Hmh))|].
  split; [exact (Hev _ _ (Hframe _ _ Hmh2))|].
  assert (Hnet : h1 !! DPNetsModule.model m = Some (NetObj mc s)).
  { rewrite Hm.
    destruct mc2 as [c2|]; [destruct Hh' as (s2 & _ & _ & ->)|destruct Hh' as [_ ->]].
    - by rewrite (lookup_app_r h), Nat.sub_diag by done.
    - by rewrite (lookup_app_r h), Nat.sub_diag by done. }
  exact (Hev _ _ Hnet).
Qed.

Lemma X14_DPNets_operations_keep_witness :
  Samples.dp_shared None = Samples.dp_shared None ∧
  (Samples.store' ++ [ExtObj 10%Z]) !! 3
    = Some (DictObj {["interval" := VPrim 5%Z]}).
Proof.
  assert (Hsteps : rtc (DPNets_step Samples.dp_parameters)
                     (Samples.dp_shared None, Samples.store')
                     (Samples.dp_shared None, Samples.store' ++ [ExtObj 10%Z])).
  { apply rtc_once, (step_configure_optimizers _ _ _ (Bare 8)).
    exact (DPNets_configure_bare Samples.dp_parameters (Samples.dp_shared None)
             Samples.store' {["lr" := VPrim 1%Z]} 10%Z eq_refl eq_refl eq_refl). }
  destruct (X14_DPNets_operations_keep Samples.dp_parameters Samples.store
              Samples.store' _ Samples.encoder Samples.sgd Samples.squared_error
              None None 0 1 2 3 4 _ _ _ _ _ (Samples.dp_shared None) _
              eq_refl eq_refl eq_refl eq_refl eq_refl
              (sample_dp_shared_constructed None) Hsteps)
    as (Hm & _ & _ & Hsc & _).
  split; [exact Hm | exact Hsc].
Defined.

(** X15.  The constructors pass on what the model classes raise: an
    exception of [model_class] is the constructor's, and so is one of
    [model_class_2], which is called only after [model_class] has
    returned. *)
Theorem X15_init_propagates {V Ext} (h : list (obj V Ext)) mc ofn lfn sfn
    (lmh loh lsh lsc lmh2 : loc) (mh oh sh sc mh2 : gmap string (value V)) e :
  h !! lmh = Some (DictObj mh) → h !! loh = Some (DictObj oh) →
  h !! lsh = Some (DictObj sh) → h !! lsc = Some (DictObj sc) →
  h !! lmh2 = Some (DictObj mh2) →
  (nc_init mc mh = Err e →
   ∀ mc2, DPNetsModule.__init__ mc lmh ofn loh lfn sfn (Some lsh) (Some lsc) mc2
            (Some lmh2) h = Err e) ∧
  (∀ c2, is_ok (nc_init mc mh) = true → nc_init c2 mh2 = Err e →
     DPNetsModule.__init__ mc lmh ofn loh lfn sfn (Some lsh) (Some lsc) (Some c2)
       (Some lmh2) h = Err e).
Proof.
  intros Hmh Hoh Hsh Hsc Hmh2. split.
  - intros He mc2.
    by rewrite (DPNets_init_run h mc ofn lfn sfn mc2 _ _ _ _ _ _ _ _ _ _
                  Hmh Hoh Hsh Hsc Hmh2), He.
  - intros c2 Hok He.
    rewrite (DPNets_init_run h mc ofn lfn sfn (Some c2) _ _ _ _ _ _ _ _ _ _
               Hmh Hoh Hsh Hsc Hmh2).
    destruct (nc_init mc mh); [|done]. by rewrite He.
Qed.

Lemma X15_init_propagates_witness :
  DPNetsModule.__init__ MoreSamples.deep_encoder 0 Samples.sgd 1
    Samples.squared_error None (Some 2) (Some 3) None (Some 4) Samples.store
  = Err TypeError ∧
  DPNetsModule.__init__ Samples.encoder 0 Samples.sgd 1 Samples.squared_error
    None (Some 2) (Some 3) (Some MoreSamples.deep_encoder) (Some 4) Samples.store
  = Err TypeError.
Proof.
  destruct (X15_init_propagates Samples.store MoreSamples.deep_encoder Samples.sgd
              Samples.squared_error None 0 1 2 3 4 _ _ _ _ _ TypeError
              eq_refl eq_refl eq_refl eq_refl eq_refl) as [H1 _].
  destruct (X15_init_propagates Samples.store Samples.encoder Samples.sgd
              Samples.squared_error None 0 1 2 3 4 _ _ _ _ _ TypeError
              eq_refl eq_refl eq_refl eq_refl eq_refl) as [_ H2].
  split; [exact (H1 eq_refl None) | exact (H2 MoreSamples.deep_encoder eq_refl eq_refl)].
Defined.

(** X16.  [configure_optimizers] of either module passes on what the
    factories raise: an exception of [optimizer_fn], and, once the
    optimizer is built, one of [scheduler_fn]. *)
Theorem X16_configure_optimizers_propagates {V Ext} (h : list (obj V Ext))
    (oh sh : gmap string (value V)) e :
  (∀ p (self : DPNetsModule.t V Ext),
     h !! DPNetsModule.optimizer_hyperparameters self = Some (DictObj oh) →
     DPNetsModule.optimizer_fn self (p self h) oh = Err e →
     DPNetsModule.configure_optimizers p self h = Err e) ∧
  (∀ p (self : DPNetsModule.t V Ext) o f,
     h !! DPNetsModule.optimizer_hyperparameters self = Some (DictObj oh) →
     h !! DPNetsModule.scheduler_hyperparameters self = Some (DictObj sh) →
     DPNetsModule.scheduler_fn self = Some f →
     DPNetsModule.optimizer_fn self (p self h) oh = Ok o →
     f (length h) sh = Err e →
     DPNetsModule.configure_optimizers p self h = Err e) ∧
  (∀ p (self : KoopmanDNNModule.t V Ext),
     h !! KoopmanDNNModule.optimizer_hyperparameters self = Some (DictObj oh) →
     KoopmanDNNModule.optimizer_fn self (p self h) oh = Err e →
     KoopmanDNNModule.configure_optimizers p self h = Err e) ∧
  (∀ p (self : KoopmanDNNModule.t V Ext) o f,
     h !! KoopmanDNNModule.optimizer_hyperparameters self = Some (DictObj oh) →
     h !! KoopmanDNNModule.scheduler_hyperparameters self = Some (DictObj sh) →
     KoopmanDNNModule.scheduler_fn self = Some f →
     KoopmanDNNModule.optimizer_fn self (p self h) oh = Ok o →
     f (length h) sh = Err e →
     KoopmanDNNModule.configure_optimizers p self h = Err e).
Proof.
  split; [|split; [|split]].
  - intros p self Hoh Ho. unfold DPNetsModule.configure_optimizers.
    unfold bind at 1, get_heap. unfold bind at 1. rewrite (kwargs_lookup _ _ _ Hoh).
    unfold bind at 1, lift at 1. by rewrite Ho.
  - intros p self o f Hoh Hsh Hf Ho Hs. unfold DPNetsModule.configure_optimizers.
    configure_run Hoh Ho. rewrite Hf. unfold bind at 1.
    rewrite (kwargs_lookup _ _ _ (lookup_app_l_Some _ _ _ _ Hsh)).
    unfold bind at 1, lift at 1. by rewrite Hs.
  - intros p self Hoh Ho. unfold KoopmanDNNModule.configure_optimizers.
    unfold bind at 1, get_heap. unfold bind at 1. rewrite (kwargs_lookup _ _ _ Hoh).
    unfold bind at 1, lift at 1. by rewrite Ho.
  - intros p self o f Hoh Hsh Hf Ho Hs. unfold KoopmanDNNModule.configure_optimizers.
    configure_run Hoh Ho. rewrite Hf. unfold bind at 1.
    rewrite (kwargs_lookup _ _ _ (lookup_app_l_Some _ _ _ _ Hsh)).
    unfold bind at 1, lift at 1. by rewrite Hs.
Qed.

Lemma X16_configure_optimizers_propagates_witness :
  DPNetsModule.configure_optimizers Samples.dp_parameters
    (Samples.dp_shared (Some MoreSamples.no_scheduler)) Samples.store'
  = Err ValueError ∧
  KoopmanDNNModule.configure_optimizers Samples.koopman_parameters
    (Samples.koopman (Some MoreSamples.no_scheduler)) Samples.store'
  = Err ValueError.
Proof.
  destruct (X16_configure_optimizers_propagates Samples.store'
              {["lr" := VPrim 1%Z]}
              {["gamma" := VPrim 2%Z; "interval" := VPrim 7%Z]} ValueError)
    as (_ & H2 & _ & H4).
  split.
  - exact (H2 Samples.dp_parameters
             (Samples.dp_shared (Some MoreSamples.no_scheduler)) 10%Z
             MoreSamples.no_scheduler eq_refl eq_refl eq_refl eq_refl eq_refl).
  - exact (H4 Samples.koopman_parameters
             (Samples.koopman (Some MoreSamples.no_scheduler)) 10%Z
             MoreSamples.no_scheduler eq_refl eq_refl eq_refl eq_refl eq_refl).
Defined.
